(** * junitxml_parse.py: the SAX handler [JUnitXMLHandler]

    A shallow embedding of [src/junitxml_parse.py]: the handler's instance
    state is a record, its methods run in a small state-and-exception monad
    (a Python exception leaves the mutations done before it in place), the
    SAX parser is the event list that drives [startElement], [endElement]
    and [characters], and [report] returns the lines it prints. *)

From Stdlib Require Import String Ascii List ZArith QArith Bool Lia.
Import ListNotations.
Open Scope string_scope.

(** ** Python string helpers used by the handler *)

(** [s.split(c)]: every occurrence of [c] separates two parts. *)
Fixpoint py_split (c : ascii) (s : string) : list string :=
  match s with
  | EmptyString => [EmptyString]
  | String a rest =>
      let parts := py_split c rest in
      if Ascii.eqb a c then EmptyString :: parts
      else match parts with
           | p :: ps => String a p :: ps
           | [] => [String a EmptyString]
           end
  end.

Fixpoint has_char (c : ascii) (s : string) : bool :=
  match s with
  | EmptyString => false
  | String a rest => Ascii.eqb a c || has_char c rest
  end.

(** [s.rpartition(c)[-1]]: the text after the last [c], or [s] itself. *)
Fixpoint rpartition_tail (c : ascii) (s : string) : string :=
  match s with
  | EmptyString => EmptyString
  | String a rest =>
      if has_char c rest then rpartition_tail c rest
      else if Ascii.eqb a c then rest
      else s
  end.

(** [lst[:-1]] *)
Definition drop_last {A} (l : list A) : list A := removelast l.

(** [sep.join(parts)] *)
Definition py_join (sep : string) (parts : list string) : string :=
  String.concat sep parts.

(** [s.startswith(p)] *)
Definition py_startswith (s p : string) : bool := String.prefix p s.

(** [s[n:]] *)
Definition py_slice_from (n : nat) (s : string) : string :=
  String.substring n (String.length s - n) s.

(** Truth value of a Python [str]. *)
Definition str_truthy (s : string) : bool := negb (String.eqb s "").

(** Truth value of an optional [str] ([None] is false). *)
Definition opt_str_truthy (o : option string) : bool :=
  match o with Some s => str_truthy s | None => false end.

(** [a == b] on values that are a [str] or [None]. *)
Definition opt_str_eqb (a b : option string) : bool :=
  match a, b with
  | Some x, Some y => String.eqb x y
  | None, None => true
  | _, _ => false
  end.

(** ** Configuration: the [args] read by [__init__] *)

(** [h_add_prefix] is the value [__init__] stores in [self._add_prefix]
    (either [--add-prefix], or the directory of a relative report path, or
    the empty string); the [os.path] computation itself is not modelled. *)
Record config := mk_config {
  h_show : option string;            (* self._show *)
  h_junitxml : string;               (* self._junitxml *)
  h_strip_prefix : string;           (* self._strip_prefix *)
  h_add_prefix : string;             (* self._add_prefix *)
  h_report_passing : bool;           (* self._report_passing *)
  h_report_errors : bool;            (* self._report_errors *)
  h_report_skips : bool              (* self._report_skips *)
}.

(** ** [_pytest_fullname] *)

Definition pytest_fullname (cfg : config) (test_class : option string)
    (test_name : string) : string :=
  let '(test_module_parts, test_class_name) :=
    match test_class with
    | Some tc => (drop_last (py_split "." tc), rpartition_tail "." tc)
    | None => ([], "")
    end in
  let '(test_module_parts, test_class_name) :=
    if str_truthy test_class_name && negb (py_startswith test_class_name "Test")
    then (app test_module_parts [test_class_name], "")
    else (test_module_parts, test_class_name) in
  let path_to_py_file := py_join "/" test_module_parts ++ ".py" in
  let path_to_py_file :=
    if str_truthy (h_strip_prefix cfg)
       && py_startswith path_to_py_file (h_strip_prefix cfg)
    then py_slice_from (String.length (h_strip_prefix cfg)) path_to_py_file
    else path_to_py_file in
  let path_to_py_file := h_add_prefix cfg ++ path_to_py_file in
  if str_truthy test_class_name
  then path_to_py_file ++ "::" ++ test_class_name ++ "::" ++ test_name
  else path_to_py_file ++ "::" ++ test_name.

Definition cfg_empty : config :=
  mk_config None "junit.xml" "" "" false false false.

(** ** Python built-ins [int()] and [float()] on attribute values

    Both accept an optional sign followed by decimal digits ([float] also a
    decimal point); the whitespace, underscores, exponents and special
    values Python also accepts are not modelled.  [float] values are kept
    as exact rationals. *)

Definition digit_val (a : ascii) : option Z :=
  let n := nat_of_ascii a in
  if (48 <=? n)%nat && (n <=? 57)%nat then Some (Z.of_nat (n - 48)) else None.

Fixpoint digits_acc (acc : Z) (s : string) : option Z :=
  match s with
  | EmptyString => Some acc
  | String a rest =>
      match digit_val a with
      | Some d => digits_acc (10 * acc + d) rest
      | None => None
      end
  end.

Definition py_digits (s : string) : option Z :=
  if str_truthy s then digits_acc 0 s else None.

Definition py_int (s : string) : option Z :=
  match s with
  | String "-" rest => option_map Z.opp (py_digits rest)
  | String "+" rest => py_digits rest
  | _ => py_digits s
  end.

Definition py_float_unsigned (s : string) : option Q :=
  match String.index 0 "." s with
  | None => option_map inject_Z (py_digits s)
  | Some i =>
      let ip := String.substring 0 i s in
      let fp := String.substring (S i) (String.length s - S i) s in
      if str_truthy ip || str_truthy fp then
        match digits_acc 0 ip, digits_acc 0 fp with
        | Some a, Some b =>
            Some (inject_Z a + Qmake b (Pos.of_nat (Nat.pow 10 (String.length fp))))%Q
        | _, _ => None
        end
      else None
  end.

Definition py_float (s : string) : option Q :=
  match s with
  | String "-" rest => option_map Qopp (py_float_unsigned rest)
  | String "+" rest => py_float_unsigned rest
  | _ => py_float_unsigned s
  end.

(** ** SAX attributes ([xml.sax.xmlreader.AttributesImpl]) *)

Definition attrs := list (string * string).

(** [attrs.get(k)] *)
Definition attrs_get (a : attrs) (k : string) : option string :=
  match find (fun kv => String.eqb (fst kv) k) a with
  | Some (_, v) => Some v
  | None => None
  end.

(** [attrs.keys()] *)
Definition attrs_keys (a : attrs) : list string := map fst a.

(** [sorted(...)] on a list of [str]. *)
Fixpoint insert_sorted (x : string) (l : list string) : list string :=
  match l with
  | [] => [x]
  | y :: ys => if String.leb y x then y :: insert_sorted x ys else x :: l
  end.

Definition sort_strings (l : list string) : list string :=
  fold_right insert_sorted [] l.

(** ** Python containers of the handler *)

(** A [dict] (or [defaultdict]) with string keys, in insertion order. *)
Definition dict (V : Type) := list (string * V).

Fixpoint dict_get {V} (d : dict V) (k : string) : option V :=
  match d with
  | [] => None
  | (k', v) :: rest => if String.eqb k' k then Some v else dict_get rest k
  end.

(** [d[k] = v] *)
Fixpoint dict_set {V} (d : dict V) (k : string) (v : V) : dict V :=
  match d with
  | [] => [(k, v)]
  | (k', v') :: rest =>
      if String.eqb k' k then (k', v) :: rest else (k', v') :: dict_set rest k v
  end.

(** [d[k]] on a [defaultdict(list)] read without inserting. *)
Definition dd_list {V} (d : dict (list V)) (k : string) : list V :=
  match dict_get d k with Some l => l | None => [] end.

(** [d[k].append(v)] on a [defaultdict(list)] *)
Definition dd_append {V} (d : dict (list V)) (k : string) (v : V) : dict (list V) :=
  dict_set d k (app (dd_list d k) [v]).

(** [s.add(x)] on a [set] of [str] (the order is irrelevant: it is sorted
    whenever it is printed). *)
Definition set_add (s : list string) (x : string) : list string :=
  if existsb (String.eqb x) s then s else app s [x].

(** ** Handler state: the instance attributes set in [__init__] *)

(** What the handler writes to [sys.stderr]. *)
Inductive diag := WarnSuiteName (name : option string).

#[projections(primitive)]
Record state := mk_state {
  cur_tag : string;                          (* self._cur_tag *)
  testcase_level : Z;                        (* self._testcase_level *)
  cur_test : option string;                  (* self._cur_test *)
  cur_status : option string;                (* self._cur_status *)
  passing_tests : list (option string);      (* self.passing_tests *)
  nonpassing_tests : dict (list (option string)); (* self.nonpassing_tests *)
  unhandled_tags : list string;              (* self.unhandled_tags *)
  expected_num_errors : option Z;
  expected_num_failures : option Z;
  expected_num_skips : option Z;
  expected_num_tests : option Z;
  total_time_sec : option Q;
  num_testcases : Z;
  num_errors : Z;
  num_failures : Z;
  num_skips : Z;
  show_attrs : dict string;                  (* self.show_attrs *)
  show_text : dict (list string);            (* self.show_text *)
  stderr : list diag                         (* lines printed to sys.stderr *)
}.

(** The state right after [__init__]. *)
Definition init_state : state :=
  mk_state "" 0 None None [] [] [] None None None None None 0 0 0 0 [] [] [].

(** Assignments [self.<field> = v]. *)
Definition set_cur_tag (v : string) (st : state) : state :=
  mk_state v (testcase_level st) (cur_test st) (cur_status st) (passing_tests st) (nonpassing_tests st) (unhandled_tags st) (expected_num_errors st) (expected_num_failures st) (expected_num_skips st) (expected_num_tests st) (total_time_sec st) (num_testcases st) (num_errors st) (num_failures st) (num_skips st) (show_attrs st) (show_text st) (stderr st).
Definition set_testcase_level (v : Z) (st : state) : state :=
  mk_state (cur_tag st) v (cur_test st) (cur_status st) (passing_tests st) (nonpassing_tests st) (unhandled_tags st) (expected_num_errors st) (expected_num_failures st) (expected_num_skips st) (expected_num_tests st) (total_time_sec st) (num_testcases st) (num_errors st) (num_failures st) (num_skips st) (show_attrs st) (show_text st) (stderr st).
Definition set_cur_test (v : option string) (st : state) : state :=
  mk_state (cur_tag st) (testcase_level st) v (cur_status st) (passing_tests st) (nonpassing_tests st) (unhandled_tags st) (expected_num_errors st) (expected_num_failures st) (expected_num_skips st) (expected_num_tests st) (total_time_sec st) (num_testcases st) (num_errors st) (num_failures st) (num_skips st) (show_attrs st) (show_text st) (stderr st).
Definition set_cur_status (v : option string) (st : state) : state :=
  mk_state (cur_tag st) (testcase_level st) (cur_test st) v (passing_tests st) (nonpassing_tests st) (unhandled_tags st) (expected_num_errors st) (expected_num_failures st) (expected_num_skips st) (expected_num_tests st) (total_time_sec st) (num_testcases st) (num_errors st) (num_failures st) (num_skips st) (show_attrs st) (show_text st) (stderr st).
Definition set_passing_tests (v : list (option string)) (st : state) : state :=
  mk_state (cur_tag st) (testcase_level st) (cur_test st) (cur_status st) v (nonpassing_tests st) (unhandled_tags st) (expected_num_errors st) (expected_num_failures st) (expected_num_skips st) (expected_num_tests st) (total_time_sec st) (num_testcases st) (num_errors st) (num_failures st) (num_skips st) (show_attrs st) (show_text st) (stderr st).
Definition set_nonpassing_tests (v : dict (list (option string))) (st : state) : state :=
  mk_state (cur_tag st) (testcase_level st) (cur_test st) (cur_status st) (passing_tests st) v (unhandled_tags st) (expected_num_errors st) (expected_num_failures st) (expected_num_skips st) (expected_num_tests st) (total_time_sec st) (num_testcases st) (num_errors st) (num_failures st) (num_skips st) (show_attrs st) (show_text st) (stderr st).
Definition set_unhandled_tags (v : list string) (st : state) : state :=
  mk_state (cur_tag st) (testcase_level st) (cur_test st) (cur_status st) (passing_tests st) (nonpassing_tests st) v (expected_num_errors st) (expected_num_failures st) (expected_num_skips st) (expected_num_tests st) (total_time_sec st) (num_testcases st) (num_errors st) (num_failures st) (num_skips st) (show_attrs st) (show_text st) (stderr st).
Definition set_expected_num_errors (v : option Z) (st : state) : state :=
  mk_state (cur_tag st) (testcase_level st) (cur_test st) (cur_status st) (passing_tests st) (nonpassing_tests st) (unhandled_tags st) v (expected_num_failures st) (expected_num_skips st) (expected_num_tests st) (total_time_sec st) (num_testcases st) (num_errors st) (num_failures st) (num_skips st) (show_attrs st) (show_text st) (stderr st).
Definition set_expected_num_failures (v : option Z) (st : state) : state :=
  mk_state (cur_tag st) (testcase_level st) (cur_test st) (cur_status st) (passing_tests st) (nonpassing_tests st) (unhandled_tags st) (expected_num_errors st) v (expected_num_skips st) (expected_num_tests st) (total_time_sec st) (num_testcases st) (num_errors st) (num_failures st) (num_skips st) (show_attrs st) (show_text st) (stderr st).
Definition set_expected_num_skips (v : option Z) (st : state) : state :=
  mk_state (cur_tag st) (testcase_level st) (cur_test st) (cur_status st) (passing_tests st) (nonpassing_tests st) (unhandled_tags st) (expected_num_errors st) (expected_num_failures st) v (expected_num_tests st) (total_time_sec st) (num_testcases st) (num_errors st) (num_failures st) (num_skips st) (show_attrs st) (show_text st) (stderr st).
Definition set_expected_num_tests (v : option Z) (st : state) : state :=
  mk_state (cur_tag st) (testcase_level st) (cur_test st) (cur_status st) (passing_tests st) (nonpassing_tests st) (unhandled_tags st) (expected_num_errors st) (expected_num_failures st) (expected_num_skips st) v (total_time_sec st) (num_testcases st) (num_errors st) (num_failures st) (num_skips st) (show_attrs st) (show_text st) (stderr st).
Definition set_total_time_sec (v : option Q) (st : state) : state :=
  mk_state (cur_tag st) (testcase_level st) (cur_test st) (cur_status st) (passing_tests st) (nonpassing_tests st) (unhandled_tags st) (expected_num_errors st) (expected_num_failures st) (expected_num_skips st) (expected_num_tests st) v (num_testcases st) (num_errors st) (num_failures st) (num_skips st) (show_attrs st) (show_text st) (stderr st).
Definition set_num_testcases (v : Z) (st : state) : state :=
  mk_state (cur_tag st) (testcase_level st) (cur_test st) (cur_status st) (passing_tests st) (nonpassing_tests st) (unhandled_tags st) (expected_num_errors st) (expected_num_failures st) (expected_num_skips st) (expected_num_tests st) (total_time_sec st) v (num_errors st) (num_failures st) (num_skips st) (show_attrs st) (show_text st) (stderr st).
Definition set_num_errors (v : Z) (st : state) : state :=
  mk_state (cur_tag st) (testcase_level st) (cur_test st) (cur_status st) (passing_tests st) (nonpassing_tests st) (unhandled_tags st) (expected_num_errors st) (expected_num_failures st) (expected_num_skips st) (expected_num_tests st) (total_time_sec st) (num_testcases st) v (num_failures st) (num_skips st) (show_attrs st) (show_text st) (stderr st).
Definition set_num_failures (v : Z) (st : state) : state :=
  mk_state (cur_tag st) (testcase_level st) (cur_test st) (cur_status st) (passing_tests st) (nonpassing_tests st) (unhandled_tags st) (expected_num_errors st) (expected_num_failures st) (expected_num_skips st) (expected_num_tests st) (total_time_sec st) (num_testcases st) (num_errors st) v (num_skips st) (show_attrs st) (show_text st) (stderr st).
Definition set_num_skips (v : Z) (st : state) : state :=
  mk_state (cur_tag st) (testcase_level st) (cur_test st) (cur_status st) (passing_tests st) (nonpassing_tests st) (unhandled_tags st) (expected_num_errors st) (expected_num_failures st) (expected_num_skips st) (expected_num_tests st) (total_time_sec st) (num_testcases st) (num_errors st) (num_failures st) v (show_attrs st) (show_text st) (stderr st).
Definition set_show_attrs (v : dict string) (st : state) : state :=
  mk_state (cur_tag st) (testcase_level st) (cur_test st) (cur_status st) (passing_tests st) (nonpassing_tests st) (unhandled_tags st) (expected_num_errors st) (expected_num_failures st) (expected_num_skips st) (expected_num_tests st) (total_time_sec st) (num_testcases st) (num_errors st) (num_failures st) (num_skips st) v (show_text st) (stderr st).
Definition set_show_text (v : dict (list string)) (st : state) : state :=
  mk_state (cur_tag st) (testcase_level st) (cur_test st) (cur_status st) (passing_tests st) (nonpassing_tests st) (unhandled_tags st) (expected_num_errors st) (expected_num_failures st) (expected_num_skips st) (expected_num_tests st) (total_time_sec st) (num_testcases st) (num_errors st) (num_failures st) (num_skips st) (show_attrs st) v (stderr st).
Definition set_stderr (v : list diag) (st : state) : state :=
  mk_state (cur_tag st) (testcase_level st) (cur_test st) (cur_status st) (passing_tests st) (nonpassing_tests st) (unhandled_tags st) (expected_num_errors st) (expected_num_failures st) (expected_num_skips st) (expected_num_tests st) (total_time_sec st) (num_testcases st) (num_errors st) (num_failures st) (num_skips st) (show_attrs st) (show_text st) v.

(** ** A state-and-exception monad for the handler's methods *)

(** The exceptions the methods can raise. *)
Inductive exn :=
| AssertionError
| KeyError (key : string)
| ValueError (literal : string)
| TypeError.

(** A method maps the instance state to its result or the exception it
    raised, together with the state at that point. *)
Definition M (A : Type) : Type := state -> (exn + A) * state.

Definition ret {A} (a : A) : M A := fun st => (inr a, st).

Definition bind {A B} (m : M A) (k : A -> M B) : M B :=
  fun st =>
    match m st with
    | (inr a, st') => k a st'
    | (inl e, st') => (inl e, st')
    end.

Notation "x <- c1 ;; c2" := (bind c1 (fun x => c2))
  (at level 61, c1 at next level, right associativity).
Notation "c1 ;; c2" := (bind c1 (fun _ => c2))
  (at level 61, right associativity).

Definition gets {A} (f : state -> A) : M A := fun st => (inr (f st), st).
Definition modify (f : state -> state) : M unit := fun st => (inr tt, f st).
Definition raise {A} (e : exn) : M A := fun st => (inl e, st).

(** [assert b] (assertions enabled, as under a plain [python3]). *)
Definition py_assert (b : bool) : M unit :=
  if b then ret tt else raise AssertionError.

Definition lift_opt {A} (o : option A) (e : exn) : M A :=
  match o with Some a => ret a | None => raise e end.

(** [for x in l: body(x)] *)
Fixpoint py_for {A} (l : list A) (body : A -> M unit) : M unit :=
  match l with
  | [] => ret tt
  | x :: xs => body x ;; py_for xs body
  end.

(** [attrs[k]] *)
Definition attrs_item (a : attrs) (k : string) : M string :=
  lift_opt (attrs_get a k) (KeyError k).

(** [int(s)] and [float(s)] *)
Definition py_int_m (s : string) : M Z := lift_opt (py_int s) (ValueError s).
Definition py_float_m (s : string) : M Q := lift_opt (py_float s) (ValueError s).

(** ** The [_start_<tag>] and [_end_<tag>] methods *)

Section Handler.

Variable cfg : config.

Definition start_testsuites (_ : attrs) : M unit := ret tt.

Definition start_testsuite (a : attrs) : M unit :=
  let name := attrs_get a "name" in
  (if opt_str_eqb name (Some "pytest") then ret tt
   else modify (fun st => set_stderr (app (stderr st) [WarnSuiteName name]) st)) ;;
  v <- attrs_item a "errors" ;; n <- py_int_m v ;;
  modify (set_expected_num_errors (Some n)) ;;
  v <- attrs_item a "failures" ;; n <- py_int_m v ;;
  modify (set_expected_num_failures (Some n)) ;;
  v <- attrs_item a "tests" ;; n <- py_int_m v ;;
  modify (set_expected_num_tests (Some n)) ;;
  v <- attrs_item a "time" ;; t <- py_float_m v ;;
  modify (set_total_time_sec (Some t)) ;;
  expected_num_skips_str <-
    (match attrs_get a "skips" with
     | Some s => ret s
     | None => attrs_item a "skipped"
     end) ;;
  n <- py_int_m expected_num_skips_str ;;
  modify (set_expected_num_skips (Some n)).

Definition start_testcase (a : attrs) : M unit :=
  modify (fun st => set_testcase_level (testcase_level st + 1) st) ;;
  lvl <- gets testcase_level ;;
  py_assert (lvl =? 1)%Z ;;
  modify (fun st => set_num_testcases (num_testcases st + 1) st) ;;
  (match attrs_get a "name" with
   | Some test_name =>
       if str_truthy test_name then
         test_class <- attrs_item a "classname" ;;
         modify (set_cur_test (Some (pytest_fullname cfg (Some test_class) test_name)))
       else modify (set_cur_test None)
   | None => modify (set_cur_test None)
   end) ;;
  modify (set_cur_status None) ;;
  ct <- gets cur_test ;;
  if opt_str_eqb (h_show cfg) ct then
    py_for (sort_strings (attrs_keys a)) (fun attr_name =>
      v <- attrs_item a attr_name ;;
      modify (fun st => set_show_attrs (dict_set (show_attrs st) attr_name v) st))
  else ret tt.

Definition end_testcase : M unit :=
  modify (fun st => set_testcase_level (testcase_level st - 1) st) ;;
  status <- gets cur_status ;;
  ct <- gets cur_test ;;
  (match status with
   | Some s =>
       if str_truthy s then
         modify (fun st => set_nonpassing_tests (dd_append (nonpassing_tests st) s ct) st)
       else modify (fun st => set_passing_tests (app (passing_tests st) [ct]) st)
   | None => modify (fun st => set_passing_tests (app (passing_tests st) [ct]) st)
   end) ;;
  modify (set_cur_test None) ;;
  modify (set_cur_status None).

Definition start_error (_ : attrs) : M unit :=
  lvl <- gets testcase_level ;;
  py_assert (lvl =? 1)%Z ;;
  modify (fun st => set_num_errors (num_errors st + 1) st) ;;
  modify (set_cur_status (Some "ERROR")).

Definition start_failure (_ : attrs) : M unit :=
  lvl <- gets testcase_level ;;
  py_assert (lvl =? 1)%Z ;;
  modify (fun st => set_num_failures (num_failures st + 1) st) ;;
  modify (set_cur_status (Some "FAIL")).

Definition start_skipped (_ : attrs) : M unit :=
  lvl <- gets testcase_level ;;
  py_assert (lvl =? 1)%Z ;;
  modify (fun st => set_num_skips (num_skips st + 1) st) ;;
  modify (set_cur_status (Some "SKIP")).

Definition start_system_out (_ : attrs) : M unit :=
  lvl <- gets testcase_level ;;
  py_assert (lvl =? 1)%Z.

Definition start_system_err (_ : attrs) : M unit :=
  lvl <- gets testcase_level ;;
  py_assert (lvl =? 1)%Z.

(** [getattr(self, method_name, None)] for the [_start_*] methods. *)
Definition start_method (method_name : string) : option (attrs -> M unit) :=
  if String.eqb method_name "_start_testsuites" then Some start_testsuites
  else if String.eqb method_name "_start_testsuite" then Some start_testsuite
  else if String.eqb method_name "_start_testcase" then Some start_testcase
  else if String.eqb method_name "_start_error" then Some start_error
  else if String.eqb method_name "_start_failure" then Some start_failure
  else if String.eqb method_name "_start_skipped" then Some start_skipped
  else if String.eqb method_name "_start_system_out" then Some start_system_out
  else if String.eqb method_name "_start_system_err" then Some start_system_err
  else None.

(** [getattr(self, method_name, None)] for the [_end_*] methods. *)
Definition end_method (method_name : string) : option (M unit) :=
  if String.eqb method_name "_end_testcase" then Some end_testcase else None.

End Handler.

(** [s.replace(x, y)] for one-character [x] and [y]. *)
Fixpoint py_replace (x y : ascii) (s : string) : string :=
  match s with
  | EmptyString => EmptyString
  | String a rest => String (if Ascii.eqb a x then y else a) (py_replace x y rest)
  end.

(** ** The SAX callbacks *)

Section Callbacks.

Variable cfg : config.

Definition startElement (name : string) (a : attrs) : M unit :=
  modify (set_cur_tag name) ;;
  let method_name := py_replace "-" "_" ("_start_" ++ name) in
  match start_method cfg method_name with
  | Some method => method a
  | None => modify (fun st => set_unhandled_tags (set_add (unhandled_tags st) name) st)
  end.

Definition endElement (name : string) : M unit :=
  let method_name := py_replace "-" "-" ("_end_" ++ name) in
  match end_method method_name with
  | Some method => method
  | None => ret tt
  end.

Definition characters (content : string) : M unit :=
  lvl <- gets testcase_level ;;
  tag <- gets cur_tag ;;
  if negb (lvl =? 1)%Z || String.eqb tag "testcase" || negb (str_truthy content)
  then ret tt
  else
    ct <- gets cur_test ;;
    if opt_str_eqb (h_show cfg) ct then
      modify (fun st => set_show_text (dd_append (show_text st) tag content) st)
    else ret tt.

End Callbacks.

(** The events the SAX parser delivers, in document order. *)
Inductive event :=
| StartElement (name : string) (a : attrs)
| EndElement (name : string)
| Characters (content : string).

Definition handle (cfg : config) (e : event) : M unit :=
  match e with
  | StartElement name a => startElement cfg name a
  | EndElement name => endElement name
  | Characters content => characters cfg content
  end.

(** [xml.sax.parse(...)] driving the handler: the events are handled in
    order and the first exception aborts the parse. *)
Fixpoint run (cfg : config) (evs : list event) : M unit :=
  match evs with
  | [] => ret tt
  | e :: rest => handle cfg e ;; run cfg rest
  end.

(** ** [report]

    A printed line is kept as the list of its fields before Python turns
    them into text: literal text, an [int], a [float], [None], or the
    [repr] of a list of [str]. *)
Inductive piece :=
| PStr (s : string)
| PInt (z : Z)
| PFloat (q : Q)
| PNone
| PStrList (l : list string).

Definition line := list piece.

(** The lines printed, and the exception that ended [report], if any. *)
Definition output := (list line * option exn)%type.

Definition emit (ls : list line) (k : output) : output := (app ls (fst k), snd k).
Definition out_done : output := ([], None).
Definition out_raise (e : exn) : output := ([], Some e).

Definition fmt_opt_int (o : option Z) : piece :=
  match o with Some z => PInt z | None => PNone end.
Definition fmt_opt_float (o : option Q) : piece :=
  match o with Some q => PFloat q | None => PNone end.
Definition fmt_opt_str (o : option string) : piece :=
  match o with Some s => PStr s | None => PNone end.

(** [sorted(l)] on a list of [str] and [None]: with two or more elements
    every element is compared at least once, and a comparison involving
    [None] raises [TypeError]. *)
Definition py_sorted_tests (l : list (option string)) : option (list (option string)) :=
  if (2 <=? length l)%nat then
    if existsb (fun o => match o with None => true | Some _ => false end) l then None
    else Some (map Some (sort_strings (flat_map (fun o => match o with
                                                         | Some s => [s]
                                                         | None => [] end) l)))
  else Some l.

Definition print_tests (l : list (option string)) : list line :=
  map (fun o => [fmt_opt_str o]) l.

Definition report (cfg : config) (st : state) : output :=
  let part1 (k : output) : output :=
    if opt_str_truthy (h_show cfg) then
      emit ([[PStr "Details for test: "; fmt_opt_str (h_show cfg)]]
            ++ map (fun kv => [PStr "  "; PStr (fst kv); PStr ": "; PStr (snd kv)])
                   (show_attrs st)
            ++ flat_map (fun kv => [[PStr (fst kv); PStr ":"];
                                    [PStr (String.concat "" (snd kv))]])
                        (show_text st))%list k
    else
      emit [[PStr "Report on JUnit XML file "; PStr (h_junitxml cfg); PStr ":"];
            [PStr "Stats from the <testsuites> tag:"]]
        (match expected_num_errors st, expected_num_failures st with
         | Some e, Some f =>
             emit [[PInt (e + f); PStr " errors (errors + failures)"];
                   [fmt_opt_int (expected_num_skips st); PStr " skips (skips + xfails)"];
                   [fmt_opt_int (expected_num_tests st); PStr " tests total."];
                   [];
                   [PStr "Stats from the body of the report:"];
                   [PStr "Number of errors: "; PInt (num_errors st + num_failures st);
                    PStr " (errors + failures)"];
                   [PStr "Number of skips (skips + xfails): "; PInt (num_skips st)];
                   [PStr "Number of <testcase> tags: "; PInt (num_testcases st)];
                   [];
                   [PStr "Total test suite run time: "; fmt_opt_float (total_time_sec st);
                    PStr " seconds"]] k
         | _, _ => out_raise TypeError
         end) in
  let part2 (k : output) : output :=
    match unhandled_tags st with
    | [] => k
    | tags => emit [[]; [PStr "Unhandled tags:"; PStr " "; PStrList (sort_strings tags)]] k
    end in
  let part3 (k : output) : output :=
    if h_report_passing cfg then
      emit [[]; [PInt (Z.of_nat (length (passing_tests st))); PStr " passing tests:"]]
        (match py_sorted_tests (passing_tests st) with
         | Some l => emit (print_tests l) k
         | None => out_raise TypeError
         end)
    else k in
  let part4 (k : output) : output :=
    if h_report_skips cfg then
      let test_list := dd_list (nonpassing_tests st) "SKIP" in
      emit [[]; [PInt (Z.of_nat (length test_list)); PStr " tests with status SKIP:"]]
        (match py_sorted_tests test_list with
         | Some l => emit (print_tests l) k
         | None => out_raise TypeError
         end)
    else k in
  let part5 (k : output) : output :=
    if h_report_errors cfg then
      let failed_tests := app (dd_list (nonpassing_tests st) "ERROR")
                              (dd_list (nonpassing_tests st) "FAIL") in
      emit [[]]
        (match py_sorted_tests failed_tests with
         | Some l =>
             emit ([PInt (Z.of_nat (length l)); PStr " tests with status ERROR or FAIL:"]
                   :: print_tests l) k
         | None => out_raise TypeError
         end)
    else k in
  part1 (part2 (part3 (part4 (part5 out_done)))).

(** ** Vocabulary of the claims *)

(** The status a [<error>], [<failure>] or [<skipped>] child stands for. *)
Definition status_child (name : string) : option string :=
  if String.eqb name "error" then Some "ERROR"
  else if String.eqb name "failure" then Some "FAIL"
  else if String.eqb name "skipped" then Some "SKIP"
  else None.

(** The status of the last status child among [evs], starting from [acc]. *)
Definition fold_status (acc : option string) (evs : list event) : option string :=
  fold_left (fun acc e =>
               match e with
               | StartElement n _ =>
                   match status_child n with Some s => Some s | None => acc end
               | _ => acc
               end) evs acc.

Definition last_status (evs : list event) : option string := fold_status None evs.

(** An event that can occur between [<testcase>] and [</testcase>]: anything
    but the start of a [<testcase>] or a [<testsuite>] and the end of the
    [<testcase>]. *)
Definition child_event (e : event) : bool :=
  match e with
  | StartElement n _ => negb (String.eqb n "testcase") && negb (String.eqb n "testsuite")
  | EndElement n => negb (String.eqb n "testcase")
  | Characters _ => true
  end.

(** The identity [_start_testcase] records for the attributes [a]. *)
Definition testcase_identity (cfg : config) (a : attrs) : option string :=
  match attrs_get a "name" with
  | Some test_name =>
      if str_truthy test_name
      then Some (pytest_fullname cfg (attrs_get a "classname") test_name)
      else None
  | None => None
  end.

(** The number of [<testcase>] start events in [evs]. *)
Definition count_testcase_starts (evs : list event) : nat :=
  length (filter (fun e => match e with
                           | StartElement n _ => String.eqb n "testcase"
                           | _ => false
                           end) evs).

(** ** Concrete inputs *)

(** The header pytest writes. *)
Definition suite_attrs : attrs :=
  [("name", "pytest"); ("errors", "0"); ("failures", "1"); ("skipped", "2");
   ("tests", "5"); ("time", "1.25")].

(** A report with a nameless testcase (interrupted run) and a failing one. *)
Definition events_two_testcases : list event :=
  [StartElement "testsuites" []; StartElement "testsuite" suite_attrs;
   StartElement "testcase" [("classname", "tests.test_mod")];
   EndElement "testcase";
   StartElement "testcase" [("classname", "tests.test_mod.TestFoo"); ("name", "test_bar")];
   StartElement "failure" [("message", "boom")]; EndElement "failure";
   EndElement "testcase";
   EndElement "testsuite"; EndElement "testsuites"].

(** A run interrupted inside a testcase: the stream stops before
    [</testcase>]. *)
Definition events_truncated : list event :=
  [StartElement "testsuites" []; StartElement "testsuite" suite_attrs;
   StartElement "testcase" [("classname", "tests.test_mod"); ("name", "test_f")];
   StartElement "system-out" []; Characters "partial output"].

(** Every list of [report] requested. *)
Definition cfg_all_lists : config :=
  mk_config None "junit.xml" "" "" true true true.

(** ** Proof vocabulary *)

(** [m] leaves the part [f] of the state unchanged. *)
Definition preserves {B A} (f : state -> B) (m : M A) : Prop :=
  forall st, f (snd (m st)) = f st.

(** The parts of the state a testcase's children leave alone. *)
Definition same_testcase (st st' : state) : Prop :=
  testcase_level st' = testcase_level st /\ cur_test st' = cur_test st /\
  passing_tests st' = passing_tests st /\ nonpassing_tests st' = nonpassing_tests st /\
  num_testcases st' = num_testcases st.

(** One step of [fold_status]. *)
Definition status_step (acc : option string) (e : event) : option string :=
  match e with
  | StartElement n _ => match status_child n with Some s => Some s | None => acc end
  | _ => acc
  end.

(** A state inside a testcase. *)
Definition level_one_state : state := set_testcase_level 1 init_state.

(** [--add-prefix] as [__init__] derives it for [tests/junit.xml]. *)
Definition cfg_add_tests : config :=
  mk_config None "tests/junit.xml" "" "tests/" false false false.

(** A module-level test function, with and without [file]. *)
Definition attrs_c5_file : attrs :=
  [("classname", "tests.test_mod"); ("name", "test_func"); ("file", "tests/test_mod.py")].

Definition attrs_c5_nofile : attrs :=
  [("classname", "tests.test_mod"); ("name", "test_func")].

(** A module whose name starts with [Test], with its [file]. *)
Definition attrs_module_named_test : attrs :=
  [("classname", "tests.TestMod"); ("name", "test_f"); ("file", "tests/TestMod.py")].

(** A header with neither [skips] nor [skipped]. *)
Definition attrs_no_skips : attrs :=
  [("name", "pytest"); ("errors", "0"); ("failures", "1"); ("tests", "4"); ("time", "0.5")].

(** ** [__init__]: the configuration read from [args]

    [os.path.isabs], [os.path.normpath] and [os.path.dirname] as
    [posixpath] defines them. *)

(** ['/' * n] *)
Fixpoint repeat_str (n : nat) (s : string) : string :=
  match n with O => "" | S k => s ++ repeat_str k s end.

Definition is_nil {A} (l : list A) : bool := match l with [] => true | _ => false end.

(** [l[-1] == x] for a non-empty [l]. *)
Definition last_is (l : list string) (x : string) : bool :=
  match rev l with y :: _ => String.eqb y x | [] => false end.

Definition py_isabs (s : string) : bool := py_startswith s "/".

(** One iteration of the loop over the components in [normpath]. *)
Definition normpath_step (initial_slashes : nat) (new_comps : list string)
    (comp : string) : list string :=
  if String.eqb comp "" || String.eqb comp "." then new_comps
  else if negb (String.eqb comp "..")
          || (Nat.eqb initial_slashes 0 && is_nil new_comps)
          || (negb (is_nil new_comps) && last_is new_comps "..")
  then app new_comps [comp]
  else if negb (is_nil new_comps) then removelast new_comps
  else new_comps.

Definition py_normpath (path : string) : string :=
  if negb (str_truthy path) then "." else
  let initial_slashes :=
    if py_startswith path "/" then
      if py_startswith path "//" && negb (py_startswith path "///") then 2%nat else 1%nat
    else 0%nat in
  let new_comps := fold_left (normpath_step initial_slashes) (py_split "/" path) [] in
  let path := py_join "/" new_comps in
  let path := if Nat.eqb initial_slashes 0 then path
              else repeat_str initial_slashes "/" ++ path in
  if str_truthy path then path else ".".

(** [p.rfind(c) + 1]: the index just after the last [c], or 0. *)
Fixpoint rfind_after (c : ascii) (s : string) : nat :=
  match s with
  | EmptyString => 0
  | String a rest =>
      if has_char c rest then S (rfind_after c rest)
      else if Ascii.eqb a c then 1 else 0
  end.

(** [s.rstrip(c)] *)
Fixpoint py_rstrip (c : ascii) (s : string) : string :=
  match s with
  | EmptyString => EmptyString
  | String a rest =>
      let r := py_rstrip c rest in
      if String.eqb r "" && Ascii.eqb a c then "" else String a r
  end.

Definition py_dirname (p : string) : string :=
  let i := rfind_after "/" p in
  let head := String.substring 0 i p in
  if str_truthy head && negb (String.eqb head (repeat_str (String.length head) "/"))
  then py_rstrip "/" head
  else head.

(** [self._add_prefix] as [__init__] computes it from [args.add_prefix]
    and [args.junitxml]. *)
Definition init_add_prefix (add_prefix junitxml : string) : string :=
  if str_truthy add_prefix then add_prefix
  else if negb (py_isabs junitxml) then
    let junitxml_dir := py_dirname (py_normpath junitxml) in
    let junitxml_dir := if str_truthy junitxml_dir then junitxml_dir ++ "/"
                        else junitxml_dir in
    junitxml_dir
  else "".

(** The command-line arguments [__init__] reads. *)
Record args := mk_args {
  a_junitxml : string;
  a_errors : bool;
  a_skips : bool;
  a_passing : bool;
  a_strip_prefix : string;
  a_add_prefix : string;
  a_show : option string
}.

Definition handler_config (a : args) : config :=
  mk_config (a_show a) (a_junitxml a) (a_strip_prefix a)
            (init_add_prefix (a_add_prefix a) (a_junitxml a))
            (a_passing a) (a_errors a) (a_skips a).

(** A path component [normpath] keeps as it is. *)
Definition plain_component (s : string) : bool :=
  str_truthy s && negb (has_char "/" s) && negb (String.eqb s ".")
  && negb (String.eqb s "..").

(** ** Vocabulary of the further properties *)

(** The event is the start, or the end, of an element named [n]. *)
Definition start_is (n : string) (e : event) : bool :=
  match e with StartElement m _ => String.eqb m n | _ => false end.

Definition end_is (n : string) (e : event) : bool :=
  match e with EndElement m => String.eqb m n | _ => false end.

(** The number of start, or end, events of elements named [n] in [evs]. *)
Definition count_start_events (n : string) (evs : list event) : nat :=
  length (filter (start_is n) evs).

Definition count_end_events (n : string) (evs : list event) : nat :=
  length (filter (end_is n) evs).

(** The number of entries over all the lists of a [defaultdict(list)]. *)
Definition dict_total {V} (d : dict (list V)) : nat :=
  fold_right (fun kv acc => (length (snd kv) + acc)%nat) 0%nat d.

(** The number of identities filed so far, passing or not. *)
Definition filed_count (st : state) : nat :=
  (length (passing_tests st) + dict_total (nonpassing_tests st))%nat.

(** * Proofs *)

(** ** Examples *)

Example fullname_1 :
  pytest_fullname cfg_empty (Some "tests.test_mod.TestFoo") "test_bar"
  = "tests/test_mod.py::TestFoo::test_bar".
Proof. reflexivity. Qed.

Example fullname_2 :
  pytest_fullname (mk_config None "j.xml" "/code/" "" false false false)
    (Some ".code.tests.test_mod") "test_f"
  = "tests/test_mod.py::test_f".
Proof. reflexivity. Qed.

Example fullname_3 :
  pytest_fullname (mk_config None "j.xml" "/code/" "" false false false)
    (Some "") "t" = ".py::t".
Proof. reflexivity. Qed.

Example run_1 :
  let '(r, st) :=
    run cfg_empty
      [StartElement "testsuites" []; StartElement "testsuite" suite_attrs;
       StartElement "testcase" [("classname", "tests.test_mod.TestFoo"); ("name", "test_bar")];
       StartElement "failure" [("message", "boom")]; Characters "trace";
       EndElement "failure"; EndElement "testcase";
       StartElement "testcase" [("classname", "tests.test_mod"); ("name", "test_f")];
       EndElement "testcase";
       StartElement "properties" [];
       EndElement "testsuite"; EndElement "testsuites"] init_state in
  (r, passing_tests st, nonpassing_tests st, num_testcases st, num_failures st,
   expected_num_skips st, total_time_sec st, unhandled_tags st, testcase_level st)
  = (inr tt, [Some "tests/test_mod.py::test_f"],
     [("FAIL", [Some "tests/test_mod.py::TestFoo::test_bar"])], 2%Z, 1%Z,
     Some 2%Z, Some (125 # 100)%Q, ["properties"], 0%Z).
Proof. vm_compute. reflexivity. Qed.

(** ** Monad laws used to run the methods symbolically *)

Lemma bind_modify {A} (f : state -> state) (k : unit -> M A) st :
  bind (modify f) k st = k tt (f st).
Proof. reflexivity. Qed.

Lemma bind_gets {A B} (g : state -> A) (k : A -> M B) st :
  bind (gets g) k st = k (g st) st.
Proof. reflexivity. Qed.

Lemma bind_ret {A B} (a : A) (k : A -> M B) st : bind (ret a) k st = k a st.
Proof. reflexivity. Qed.

Lemma bind_ok {A B} (m : M A) (k : A -> M B) st a st' :
  m st = (inr a, st') -> bind m k st = k a st'.
Proof. intros H. unfold bind. rewrite H. reflexivity. Qed.

Lemma bind_err {A B} (m : M A) (k : A -> M B) st e st' :
  m st = (inl e, st') -> bind m k st = (inl e, st').
Proof. intros H. unfold bind. rewrite H. reflexivity. Qed.

Lemma bind_assoc {A B C} (m : M A) (k : A -> M B) (h : B -> M C) st :
  bind (bind m k) h st = bind m (fun a => bind (k a) h) st.
Proof. unfold bind. destruct (m st) as [[e|a] st']; reflexivity. Qed.

(** ** Which state a method leaves unchanged *)

Section Preserves.

Context {B : Type} (f : state -> B).

Lemma preserves_ret {A} (a : A) : preserves f (ret a).
Proof. intros st. reflexivity. Qed.

Lemma preserves_gets {A} (g : state -> A) : preserves f (gets g).
Proof. intros st. reflexivity. Qed.

Lemma preserves_raise {A} e : preserves f (@raise A e).
Proof. intros st. reflexivity. Qed.

Lemma preserves_modify (g : state -> state) :
  (forall st, f (g st) = f st) -> preserves f (modify g).
Proof. intros H st. apply H. Qed.

Lemma preserves_bind {A C} (m : M A) (k : A -> M C) :
  preserves f m -> (forall a, preserves f (k a)) -> preserves f (bind m k).
Proof.
  intros Hm Hk st. unfold bind.
  specialize (Hm st).
  destruct (m st) as [[e|a] st'] eqn:E; simpl in *.
  - exact Hm.
  - rewrite Hk. exact Hm.
Qed.

Lemma preserves_py_assert b : preserves f (py_assert b).
Proof. destruct b; intros st; reflexivity. Qed.

Lemma preserves_lift_opt {A} (o : option A) e : preserves f (lift_opt o e).
Proof. destruct o; intros st; reflexivity. Qed.

Lemma preserves_py_for {A} (l : list A) (body : A -> M unit) :
  (forall x, preserves f (body x)) -> preserves f (py_for l body).
Proof.
  intros H. induction l as [|x xs IH]; simpl.
  - apply preserves_ret.
  - apply preserves_bind; auto.
Qed.

Lemma preserves_result {A} (m : M A) st r st' :
  preserves f m -> m st = (r, st') -> f st' = f st.
Proof. intros H E. specialize (H st). rewrite E in H. exact H. Qed.

End Preserves.

Create HintDb preserves.
#[export] Hint Resolve preserves_ret preserves_gets preserves_raise
  preserves_py_assert preserves_lift_opt : preserves.

(** Proves [preserves f m] for a method body built from the combinators. *)
Ltac solve_preserves :=
  repeat match goal with
  | |- preserves _ (bind _ _) => apply preserves_bind; [|intro]
  | |- preserves _ (py_for _ _) => apply preserves_py_for; intro
  | |- preserves _ (modify _) => apply preserves_modify; intro; reflexivity
  | |- preserves _ (attrs_item _ _) => apply preserves_lift_opt
  | |- preserves _ (py_int_m _) => apply preserves_lift_opt
  | |- preserves _ (py_float_m _) => apply preserves_lift_opt
  | |- preserves _ (match ?x with _ => _ end) => destruct x
  | |- preserves _ (if ?b then _ else _) => destruct b
  | |- preserves _ _ => solve [auto with preserves]
  end.

Lemma start_testsuite_preserves_num a :
  preserves num_testcases (start_testsuite a).
Proof. unfold start_testsuite. solve_preserves. Qed.

(** ** Dispatch by method name *)

Lemma py_replace_app x y s t :
  py_replace x y (s ++ t) = py_replace x y s ++ py_replace x y t.
Proof. induction s as [|a s IH]; simpl; [reflexivity | now rewrite IH]. Qed.

(** A replacement whose result has no [y] changed nothing. *)
Lemma py_replace_fixed x y n t :
  py_replace x y n = t -> has_char y t = false -> n = t.
Proof.
  revert t. induction n as [|a n IH]; intros t E Hy; simpl in E; subst t.
  - reflexivity.
  - simpl in Hy. apply orb_false_iff in Hy as [Ha Hr].
    destruct (Ascii.eqb a x) eqn:Ex.
    + rewrite Ascii.eqb_refl in Ha. discriminate.
    + f_equal. apply IH; [reflexivity | exact Hr].
Qed.

Lemma start_method_name n :
  py_replace "-" "_" ("_start_" ++ n) = "_start_" ++ py_replace "-" "_" n.
Proof. rewrite py_replace_app. reflexivity. Qed.

(** [_start_<n>] names the method [_start_<t>] only for [n = t] when [t]
    has no underscore. *)
Lemma start_method_is n t :
  String.eqb ("_start_" ++ py_replace "-" "_" n) ("_start_" ++ t) = true ->
  has_char "_" t = false -> n = t.
Proof.
  intros E Ht. apply String.eqb_eq in E. simpl in E.
  repeat match type of E with String _ _ = String _ _ => injection E as E end.
  eapply py_replace_fixed; eassumption.
Qed.

(** The [startElement] dispatch for a name [n] that is none of the
    handled tags falls through to the unhandled-tag branch, or reaches
    [_start_testsuites], [_start_system_out] or [_start_system_err]. *)
Ltac name_is E :=
  let H := fresh in
  match type of E with
  | String.eqb (?p ++ _) ?lit = true =>
      change lit with (p ++ String.substring 7 (String.length lit - 7) lit) in E;
      pose proof (start_method_is _ _ E eq_refl) as H; simpl in H
  end.

Lemma start_testcase_nested cfg st a :
  testcase_level st = 1%Z ->
  handle cfg (StartElement "testcase" a) st
  = (inl AssertionError, set_testcase_level 2 (set_cur_tag "testcase" st)).
Proof.
  intros H. unfold handle, startElement. rewrite bind_modify. simpl.
  unfold start_testcase. rewrite bind_modify, bind_gets. simpl. rewrite H.
  reflexivity.
Qed.

Lemma py_replace_same x s : py_replace x x s = s.
Proof.
  induction s as [|a s IH]; simpl; [reflexivity|].
  rewrite IH. destruct (Ascii.eqb a x) eqn:E; [apply Ascii.eqb_eq in E; subst|]; reflexivity.
Qed.

(** [_end_<n>] is [_end_testcase] only for [n = "testcase"]. *)
Lemma end_method_name n :
  end_method (py_replace "-" "-" ("_end_" ++ n))
  = if String.eqb n "testcase" then Some end_testcase else None.
Proof.
  rewrite py_replace_same. unfold end_method.
  destruct (String.eqb n "testcase") eqn:E.
  - apply String.eqb_eq in E. subst. reflexivity.
  - destruct (String.eqb ("_end_" ++ n) "_end_testcase") eqn:E2; [|reflexivity].
    apply String.eqb_eq in E2. simpl in E2.
    repeat match type of E2 with String _ _ = String _ _ => injection E2 as E2 end.
    subst. discriminate.
Qed.

(** Turns [E : String.eqb ("_start_" ++ py_replace "-" "_" n) lit = true]
    into [n = t]. *)
Ltac method_is E t :=
  apply (start_method_is _ t) in E; [|reflexivity].


Lemma same_testcase_refl st : same_testcase st st.
Proof. repeat split. Qed.

Lemma same_testcase_trans st1 st2 st3 :
  same_testcase st1 st2 -> same_testcase st2 st3 -> same_testcase st1 st3.
Proof.
  unfold same_testcase. intros (A1 & B1 & C1 & D1 & E1) (A2 & B2 & C2 & D2 & E2).
  repeat split; congruence.
Qed.

Lemma fold_status_cons acc e evs :
  fold_status acc (e :: evs) = fold_status (status_step acc e) evs.
Proof. reflexivity. Qed.

Ltac run_method Hl :=
  cbv [start_testsuites start_error start_failure start_skipped start_system_out
       start_system_err bind gets modify py_assert ret raise];
  simpl; rewrite ?Hl; simpl;
  eexists; split; [reflexivity | split; [unfold same_testcase; simpl; rewrite ?Hl; repeat split | reflexivity]].

(** One event inside a testcase: handled without exception, the testcase
    stays open and the current status follows the status children. *)
Lemma child_step cfg e st :
  testcase_level st = 1%Z -> child_event e = true ->
  exists st', handle cfg e st = (inr tt, st') /\ same_testcase st st' /\
              cur_status st' = status_step (cur_status st) e.
Proof.
  intros Hl Hc. destruct e as [n a|n|c]; simpl in Hc.
  - apply andb_true_iff in Hc as [Hc1 Hc2].
    apply negb_true_iff in Hc1, Hc2.
    unfold handle, startElement. rewrite bind_modify. cbv zeta.
    rewrite start_method_name. simpl status_step.
    destruct (String.eqb n "error") eqn:He;
      [apply String.eqb_eq in He; subst; simpl; run_method Hl|].
    destruct (String.eqb n "failure") eqn:Hf;
      [apply String.eqb_eq in Hf; subst; simpl; run_method Hl|].
    destruct (String.eqb n "skipped") eqn:Hk;
      [apply String.eqb_eq in Hk; subst; simpl; run_method Hl|].
    assert (Hs : status_child n = None) by (unfold status_child; now rewrite He, Hf, Hk).
    rewrite Hs. unfold start_method.
    destruct (String.eqb _ "_start_testsuites") eqn:E1; [run_method Hl|].
    destruct (String.eqb _ "_start_testsuite") eqn:E2;
      [method_is E2 "testsuite"; subst; discriminate|].
    destruct (String.eqb _ "_start_testcase") eqn:E3;
      [method_is E3 "testcase"; subst; discriminate|].
    destruct (String.eqb _ "_start_error") eqn:E4;
      [method_is E4 "error"; subst; discriminate|].
    destruct (String.eqb _ "_start_failure") eqn:E5;
      [method_is E5 "failure"; subst; discriminate|].
    destruct (String.eqb _ "_start_skipped") eqn:E6;
      [method_is E6 "skipped"; subst; discriminate|].
    destruct (String.eqb _ "_start_system_out") eqn:E7; [run_method Hl|].
    destruct (String.eqb _ "_start_system_err") eqn:E8; [run_method Hl|].
    run_method Hl.
  - apply negb_true_iff in Hc.
    unfold handle, endElement. cbv zeta. rewrite end_method_name, Hc.
    eexists; split; [reflexivity | split; [apply same_testcase_refl | reflexivity]].
  - unfold handle, characters. rewrite !bind_gets.
    destruct (_ || _ || _).
    + eexists; split; [reflexivity | split; [apply same_testcase_refl | reflexivity]].
    + rewrite bind_gets. destruct (opt_str_eqb _ _);
      (eexists; split; [reflexivity | split; [repeat split | reflexivity]]).
Qed.

Lemma run_app cfg l1 l2 st :
  run cfg (l1 ++ l2) st = bind (run cfg l1) (fun _ => run cfg l2) st.
Proof.
  revert st. induction l1 as [|e l1 IH]; intros st; simpl.
  - reflexivity.
  - rewrite bind_assoc.
    destruct (handle cfg e st) as [[ex|[]] st'] eqn:E.
    + rewrite !(bind_err _ _ _ _ _ E). reflexivity.
    + rewrite !(bind_ok _ _ _ _ _ E). apply IH.
Qed.

(** The children of a testcase are all handled; the testcase stays open and
    its status is the one of the last status child. *)
Lemma run_children cfg cs st :
  testcase_level st = 1%Z -> Forall (fun e => child_event e = true) cs ->
  exists st', run cfg cs st = (inr tt, st') /\ same_testcase st st' /\
              cur_status st' = fold_status (cur_status st) cs.
Proof.
  revert st. induction cs as [|e cs IH]; intros st Hl Hf.
  - exists st. split; [reflexivity | split; [apply same_testcase_refl | reflexivity]].
  - inversion Hf as [|? ? He Hcs]; subst.
    destruct (child_step cfg e st Hl He) as (st1 & E1 & S1 & T1).
    assert (Hl1 : testcase_level st1 = 1%Z) by (destruct S1; congruence).
    destruct (IH st1 Hl1 Hcs) as (st2 & E2 & S2 & T2).
    exists st2. simpl. split; [rewrite (bind_ok _ _ _ _ _ E1); exact E2|].
    split; [eapply same_testcase_trans; eassumption|].
    rewrite T2, T1. reflexivity.
Qed.

(** [</testcase>] files the current identity under the current status. *)
Lemma end_testcase_step cfg st :
  exists st', handle cfg (EndElement "testcase") st = (inr tt, st') /\
    testcase_level st' = (testcase_level st - 1)%Z /\
    num_testcases st' = num_testcases st /\
    cur_test st' = None /\ cur_status st' = None /\
    match cur_status st with
    | Some s =>
        if str_truthy s then
          passing_tests st' = passing_tests st /\
          nonpassing_tests st' = dd_append (nonpassing_tests st) s (cur_test st)
        else
          passing_tests st' = app (passing_tests st) [cur_test st] /\
          nonpassing_tests st' = nonpassing_tests st
    | None =>
        passing_tests st' = app (passing_tests st) [cur_test st] /\
        nonpassing_tests st' = nonpassing_tests st
    end.
Proof.
  unfold handle, endElement. cbv zeta. rewrite end_method_name. simpl.
  unfold end_testcase. rewrite bind_modify, !bind_gets. simpl.
  destruct (cur_status st) as [s|]; [destruct (str_truthy s)|];
    (eexists; split; [reflexivity | simpl; repeat split]).
Qed.

(** ** The snapshot of the attributes in [_start_testcase] *)

Lemma In_insert_sorted x y l : In y (insert_sorted x l) <-> x = y \/ In y l.
Proof.
  induction l as [|z l IH]; simpl; [tauto|].
  destruct (String.leb z x); simpl; rewrite ?IH; tauto.
Qed.

Lemma In_sort_strings y l : In y (sort_strings l) <-> In y l.
Proof.
  induction l as [|x l IH]; simpl; [tauto|].
  rewrite In_insert_sorted, IH. intuition.
Qed.

Lemma attrs_get_key a k : In k (attrs_keys a) -> exists v, attrs_get a k = Some v.
Proof.
  induction a as [|[k' v'] a IH]; simpl; [tauto|].
  unfold attrs_get. simpl. destruct (String.eqb k' k) eqn:E.
  - intros _. eauto.
  - intros [->|Hin]; [rewrite String.eqb_refl in E; discriminate|].
    apply IH. exact Hin.
Qed.

Lemma bind_attrs_item {A} a k v (f : string -> M A) st :
  attrs_get a k = Some v -> bind (attrs_item a k) f st = f v st.
Proof. intros H. unfold attrs_item. rewrite H. reflexivity. Qed.

Lemma snapshot_ok a l st :
  (forall k, In k l -> In k (attrs_keys a)) ->
  exists d,
    py_for l (fun attr_name =>
      v <- attrs_item a attr_name ;;
      modify (fun st => set_show_attrs (dict_set (show_attrs st) attr_name v) st)) st
    = (inr tt, set_show_attrs d st).
Proof.
  revert st. induction l as [|k l IH]; intros st Hl; simpl.
  - exists (show_attrs st). reflexivity.
  - destruct (attrs_get_key a k (Hl k (or_introl eq_refl))) as [v Hv].
    rewrite bind_assoc, (bind_attrs_item _ _ _ _ _ Hv), bind_modify.
    destruct (IH (set_show_attrs (dict_set (show_attrs st) k v) st)) as [d Hd];
      [intros; apply Hl; right; assumption|].
    exists d. rewrite Hd. reflexivity.
Qed.

(** [<testcase>] opened at nesting level 0: the counter is incremented and
    the identity recorded; only a present, non-empty [name] without a
    [classname] raises. *)
Lemma start_testcase_step cfg a st :
  testcase_level st = 0%Z ->
  (forall n, attrs_get a "name" = Some n -> str_truthy n = true ->
             attrs_get a "classname" <> None) ->
  exists st1, handle cfg (StartElement "testcase" a) st = (inr tt, st1) /\
    testcase_level st1 = 1%Z /\ num_testcases st1 = (num_testcases st + 1)%Z /\
    cur_status st1 = None /\ passing_tests st1 = passing_tests st /\
    nonpassing_tests st1 = nonpassing_tests st /\
    cur_test st1 = testcase_identity cfg a.
Proof.
  intros Hl Hc.
  unfold handle, startElement. rewrite bind_modify. cbv zeta.
  change (start_method cfg (py_replace "-" "_" ("_start_" ++ "testcase")))
    with (Some (start_testcase cfg)). cbv beta iota.
  unfold start_testcase. rewrite bind_modify, bind_gets. simpl.
  rewrite Hl. simpl. rewrite bind_ret, bind_modify.
  unfold testcase_identity.
  destruct (attrs_get a "name") as [n|] eqn:En;
    [destruct (str_truthy n) eqn:Et|].
  - destruct (attrs_get a "classname") as [c|] eqn:Ec;
      [|exfalso; exact (Hc n eq_refl Et eq_refl)].
    rewrite bind_assoc, (bind_attrs_item _ _ _ _ _ Ec), bind_modify.
    rewrite bind_modify, bind_gets. simpl.
    destruct (opt_str_eqb _ _).
    + edestruct (snapshot_ok a (sort_strings (attrs_keys a))) as [d Hd];
        [intros k Hk; rewrite In_sort_strings in Hk; exact Hk|].
      rewrite Hd. eexists; split; [reflexivity|]. simpl. repeat split.
    + eexists; split; [reflexivity|]. simpl. repeat split.
  - rewrite !bind_modify, bind_gets. simpl.
    destruct (opt_str_eqb _ _).
    + edestruct (snapshot_ok a (sort_strings (attrs_keys a))) as [d Hd];
        [intros k Hk; rewrite In_sort_strings in Hk; exact Hk|].
      rewrite Hd. eexists; split; [reflexivity|]. simpl. repeat split.
    + eexists; split; [reflexivity|]. simpl. repeat split.
  - rewrite !bind_modify, bind_gets. simpl.
    destruct (opt_str_eqb _ _).
    + edestruct (snapshot_ok a (sort_strings (attrs_keys a))) as [d Hd];
        [intros k Hk; rewrite In_sort_strings in Hk; exact Hk|].
      rewrite Hd. eexists; split; [reflexivity|]. simpl. repeat split.
    + eexists; split; [reflexivity|]. simpl. repeat split.
Qed.

(** A [<testcase>] start handled without exception was at level 0, and
    had a [classname] if its [name] was present and non-empty. *)
Lemma start_testcase_inv cfg a st st1 :
  handle cfg (StartElement "testcase" a) st = (inr tt, st1) ->
  testcase_level st = 0%Z /\
  (forall n, attrs_get a "name" = Some n -> str_truthy n = true ->
             attrs_get a "classname" <> None).
Proof.
  intros H.
  unfold handle, startElement in H. rewrite bind_modify in H. cbv zeta in H.
  change (start_method cfg (py_replace "-" "_" ("_start_" ++ "testcase")))
    with (Some (start_testcase cfg)) in H. cbv beta iota in H.
  unfold start_testcase in H. rewrite bind_modify, bind_gets in H. simpl in H.
  destruct (testcase_level st + 1 =? 1)%Z eqn:Hl;
    [|cbv [py_assert raise bind] in H; discriminate H].
  apply Z.eqb_eq in Hl. split; [lia|].
  intros n Hn Ht Hc.
  unfold py_assert in H. rewrite bind_ret, bind_modify, Hn, Ht in H.
  unfold attrs_item in H. rewrite Hc in H.
  cbv [lift_opt raise bind] in H. discriminate H.
Qed.

Lemma dict_get_set {V} (d : dict V) k v k' :
  dict_get (dict_set d k v) k' = if String.eqb k k' then Some v else dict_get d k'.
Proof.
  induction d as [|[k0 v0] d IH]; simpl; [reflexivity|].
  destruct (String.eqb_spec k0 k) as [->|Hne]; simpl.
  - destruct (String.eqb k k'); reflexivity.
  - rewrite IH. destruct (String.eqb_spec k0 k') as [->|]; [|reflexivity].
    destruct (String.eqb_spec k k') as [->|]; [congruence | reflexivity].
Qed.

Lemma dd_list_append {V} (d : dict (list V)) s v k :
  dd_list (dd_append d s v) k = app (dd_list d k) (if String.eqb k s then [v] else []).
Proof.
  unfold dd_append, dd_list at 1. rewrite dict_get_set, String.eqb_sym.
  destruct (String.eqb_spec k s) as [->|]; [reflexivity|].
  rewrite app_nil_r. reflexivity.
Qed.

Lemma fold_status_truthy acc cs s :
  (forall s0, acc = Some s0 -> str_truthy s0 = true) ->
  fold_status acc cs = Some s -> str_truthy s = true.
Proof.
  revert acc. induction cs as [|e cs IH]; intros acc Hacc Hf.
  - apply Hacc. exact Hf.
  - rewrite fold_status_cons in Hf. apply (IH _) in Hf; [exact Hf|].
    intros s0 H0. destruct e as [n a| |]; simpl in H0; try (apply Hacc; exact H0).
    unfold status_child in H0.
    destruct (String.eqb n "error"); [injection H0 as <-; reflexivity|].
    destruct (String.eqb n "failure"); [injection H0 as <-; reflexivity|].
    destruct (String.eqb n "skipped"); [injection H0 as <-; reflexivity|].
    apply Hacc. exact H0.
Qed.

Lemma run_one cfg e st st' :
  handle cfg e st = (inr tt, st') -> run cfg [e] st = (inr tt, st').
Proof. intros H. simpl. rewrite (bind_ok _ _ _ _ _ H). reflexivity. Qed.

(** The whole of a testcase: after its start was handled, its children and
    its end are handled without exception and exactly one list receives the
    identity recorded at the start. *)
Lemma testcase_body cfg st a cs st1 :
  handle cfg (StartElement "testcase" a) st = (inr tt, st1) ->
  Forall (fun e => child_event e = true) cs ->
  exists st2, run cfg (cs ++ [EndElement "testcase"]) st1 = (inr tt, st2) /\
    testcase_level st2 = 0%Z /\ num_testcases st2 = (num_testcases st + 1)%Z /\
    cur_test st1 = testcase_identity cfg a /\
    match last_status cs with
    | None =>
        passing_tests st2 = app (passing_tests st) [cur_test st1] /\
        (forall k, dd_list (nonpassing_tests st2) k = dd_list (nonpassing_tests st) k)
    | Some s =>
        passing_tests st2 = passing_tests st /\
        (forall k, dd_list (nonpassing_tests st2) k =
                   app (dd_list (nonpassing_tests st) k)
                       (if String.eqb k s then [cur_test st1] else []))
    end.
Proof.
  intros H Hcs.
  destruct (start_testcase_inv cfg a st st1 H) as [Hl Hc].
  destruct (start_testcase_step cfg a st Hl Hc)
    as (st1' & E & L1 & N1 & S1 & P1 & NP1 & T1).
  rewrite E in H. injection H as <-.
  destruct (run_children cfg cs st1' L1 Hcs)
    as (st' & E2 & (L2 & T2 & P2 & NP2 & N2) & S2).
  destruct (end_testcase_step cfg st')
    as (st'' & E3 & L3 & N3 & T3 & S3 & B3).
  exists st''. rewrite run_app, (bind_ok _ _ _ _ _ E2), (run_one _ _ _ _ E3).
  split; [reflexivity|].
  split; [rewrite L3, L2, L1; reflexivity|].
  split; [rewrite N3, N2, N1; reflexivity|].
  split; [exact T1|].
  rewrite S2, S1 in B3. unfold last_status.
  destruct (fold_status None cs) as [s|] eqn:Fs.
  - rewrite (fold_status_truthy None cs s (fun _ H0 => ltac:(discriminate H0)) Fs) in B3.
    destruct B3 as [B3a B3b].
    split; [rewrite B3a, P2, P1; reflexivity|].
    intros k. rewrite B3b, dd_list_append, NP2, NP1, T2. reflexivity.
  - destruct B3 as [B3a B3b].
    split; [rewrite B3a, P2, P1, T2; reflexivity|].
    intros k. rewrite B3b, NP2, NP1. reflexivity.
Qed.

Lemma run_cons_err cfg e rest st ex st' :
  handle cfg e st = (inl ex, st') -> run cfg (e :: rest) st = (inl ex, st').
Proof. intros H. simpl. apply (bind_err _ _ _ _ _ H). Qed.

(** ** The claims *)

(** C1: every testcase whose start was handled is filed in exactly one
    list when its end is handled: the passing list when no [<error>],
    [<failure>] or [<skipped>] child was seen, otherwise only the list of
    the last such child; any number of status children raise nothing. *)
Theorem testcase_exactly_one_bucket cfg st a cs st1 :
  handle cfg (StartElement "testcase" a) st = (inr tt, st1) ->
  Forall (fun e => child_event e = true) cs ->
  exists st2, run cfg (cs ++ [EndElement "testcase"]) st1 = (inr tt, st2) /\
    match last_status cs with
    | None =>
        passing_tests st2 = app (passing_tests st) [cur_test st1] /\
        (forall k, dd_list (nonpassing_tests st2) k = dd_list (nonpassing_tests st) k)
    | Some s =>
        passing_tests st2 = passing_tests st /\
        (forall k, dd_list (nonpassing_tests st2) k =
                   app (dd_list (nonpassing_tests st) k)
                       (if String.eqb k s then [cur_test st1] else []))
    end.
Proof.
  intros H Hcs.
  destruct (testcase_body cfg st a cs st1 H Hcs) as (st2 & E & _ & _ & _ & B).
  exists st2. split; [exact E | exact B].
Qed.

Lemma testcase_exactly_one_bucket_witness :
  let a := [("classname", "tests.test_mod.TestFoo"); ("name", "test_bar")] in
  let cs := [StartElement "failure" []; Characters "boom"; EndElement "failure";
             StartElement "skipped" []; EndElement "skipped"] in
  handle cfg_empty (StartElement "testcase" a) init_state
    = (inr tt, snd (handle cfg_empty (StartElement "testcase" a) init_state)) /\
  Forall (fun e => child_event e = true) cs /\
  exists st2,
    run cfg_empty (cs ++ [EndElement "testcase"])
      (snd (handle cfg_empty (StartElement "testcase" a) init_state)) = (inr tt, st2) /\
    match last_status cs with
    | None =>
        passing_tests st2 = app (passing_tests init_state)
          [cur_test (snd (handle cfg_empty (StartElement "testcase" a) init_state))] /\
        (forall k, dd_list (nonpassing_tests st2) k = dd_list (nonpassing_tests init_state) k)
    | Some s =>
        passing_tests st2 = passing_tests init_state /\
        (forall k, dd_list (nonpassing_tests st2) k =
                   app (dd_list (nonpassing_tests init_state) k)
                       (if String.eqb k s then
                          [cur_test (snd (handle cfg_empty (StartElement "testcase" a) init_state))]
                        else []))
    end.
Proof.
  intros a cs.
  assert (H : handle cfg_empty (StartElement "testcase" a) init_state
              = (inr tt, snd (handle cfg_empty (StartElement "testcase" a) init_state)))
    by reflexivity.
  assert (Hcs : Forall (fun e => child_event e = true) cs) by (repeat constructor).
  split; [exact H|]. split; [exact Hcs|].
  exact (testcase_exactly_one_bucket cfg_empty init_state a cs _ H Hcs).
Defined.

(** C3: a [<testcase>] start inside a testcase (nesting level 1) fails the
    assertion of [_start_testcase] and aborts the parse. *)
Theorem nested_testcase_aborts cfg st a rest :
  testcase_level st = 1%Z ->
  exists st', run cfg (StartElement "testcase" a :: rest) st = (inl AssertionError, st').
Proof.
  intros H. eexists. apply run_cons_err. apply start_testcase_nested. exact H.
Qed.

Lemma nested_testcase_aborts_witness :
  testcase_level level_one_state = 1%Z /\
  exists st', run cfg_empty [StartElement "testcase" [("name", "t")]; EndElement "testcase"]
                level_one_state = (inl AssertionError, st').
Proof.
  split; [reflexivity|].
  apply (nested_testcase_aborts cfg_empty level_one_state [("name", "t")]
           [EndElement "testcase"]).
  reflexivity.
Defined.

(** C4: with empty strip and add prefixes, [classname="tests.test_mod.TestFoo"],
    [name="test_bar"] and no [file] attribute, the identity recorded is
    [tests/test_mod.py::TestFoo::test_bar]. *)
Theorem identity_roundtrip_class cfg st a :
  h_strip_prefix cfg = "" -> h_add_prefix cfg = "" ->
  testcase_level st = 0%Z ->
  attrs_get a "classname" = Some "tests.test_mod.TestFoo" ->
  attrs_get a "name" = Some "test_bar" ->
  attrs_get a "file" = None ->
  exists st1, handle cfg (StartElement "testcase" a) st = (inr tt, st1) /\
              cur_test st1 = Some "tests/test_mod.py::TestFoo::test_bar".
Proof.
  intros Hs Ha Hl Hc Hn _.
  destruct (start_testcase_step cfg a st Hl) as (st1 & E & _ & _ & _ & _ & _ & T);
    [intros; rewrite Hc; discriminate|].
  exists st1. split; [exact E|].
  rewrite T. unfold testcase_identity. rewrite Hn, Hc. simpl.
  unfold pytest_fullname. rewrite Hs, Ha. reflexivity.
Qed.

Lemma identity_roundtrip_class_witness :
  h_strip_prefix cfg_empty = "" /\ h_add_prefix cfg_empty = "" /\
  testcase_level init_state = 0%Z /\
  exists st1,
    handle cfg_empty (StartElement "testcase"
      [("classname", "tests.test_mod.TestFoo"); ("name", "test_bar")]) init_state
    = (inr tt, st1) /\ cur_test st1 = Some "tests/test_mod.py::TestFoo::test_bar".
Proof.
  split; [reflexivity|]. split; [reflexivity|]. split; [reflexivity|].
  apply identity_roundtrip_class; reflexivity.
Defined.

(** C8: a [<testcase>] start without a [name] raises nothing, records no
    identity ([None]) and increments the testcase counter; at its end the
    [None] identity is filed in the list its last status child implies, or
    in the passing list. *)
Theorem nameless_testcase_counted cfg st a cs :
  testcase_level st = 0%Z ->
  attrs_get a "name" = None ->
  Forall (fun e => child_event e = true) cs ->
  exists st1 st2,
    handle cfg (StartElement "testcase" a) st = (inr tt, st1) /\
    cur_test st1 = None /\
    num_testcases st1 = (num_testcases st + 1)%Z /\
    run cfg (cs ++ [EndElement "testcase"]) st1 = (inr tt, st2) /\
    num_testcases st2 = (num_testcases st + 1)%Z /\
    match last_status cs with
    | None =>
        passing_tests st2 = app (passing_tests st) [None] /\
        (forall k, dd_list (nonpassing_tests st2) k = dd_list (nonpassing_tests st) k)
    | Some s =>
        passing_tests st2 = passing_tests st /\
        (forall k, dd_list (nonpassing_tests st2) k =
                   app (dd_list (nonpassing_tests st) k)
                       (if String.eqb k s then [None] else []))
    end.
Proof.
  intros Hl Hn Hcs.
  destruct (start_testcase_step cfg a st Hl) as (st1 & E & _ & N1 & _ & _ & _ & T1);
    [intros n Hn'; rewrite Hn in Hn'; discriminate|].
  assert (T : cur_test st1 = None) by (rewrite T1; unfold testcase_identity; rewrite Hn; reflexivity).
  destruct (testcase_body cfg st a cs st1 E Hcs) as (st2 & E2 & _ & N2 & _ & B).
  exists st1, st2. rewrite T in B.
  repeat split; assumption.
Qed.

Lemma nameless_testcase_counted_witness :
  testcase_level init_state = 0%Z /\
  attrs_get [("classname", "tests.test_mod")] "name" = None /\
  Forall (fun e => child_event e = true) [StartElement "error" []; EndElement "error"] /\
  exists st1 st2,
    handle cfg_empty (StartElement "testcase" [("classname", "tests.test_mod")]) init_state
      = (inr tt, st1) /\
    cur_test st1 = None /\
    num_testcases st1 = (num_testcases init_state + 1)%Z /\
    run cfg_empty ([StartElement "error" []; EndElement "error"] ++ [EndElement "testcase"]) st1
      = (inr tt, st2) /\
    num_testcases st2 = (num_testcases init_state + 1)%Z /\
    match last_status [StartElement "error" []; EndElement "error"] with
    | None =>
        passing_tests st2 = app (passing_tests init_state) [None] /\
        (forall k, dd_list (nonpassing_tests st2) k = dd_list (nonpassing_tests init_state) k)
    | Some s =>
        passing_tests st2 = passing_tests init_state /\
        (forall k, dd_list (nonpassing_tests st2) k =
                   app (dd_list (nonpassing_tests init_state) k)
                       (if String.eqb k s then [None] else []))
    end.
Proof.
  split; [reflexivity|]. split; [reflexivity|]. split; [repeat constructor|].
  apply nameless_testcase_counted; [reflexivity | reflexivity | repeat constructor].
Defined.

(** C10: an [<error>], [<failure>] or [<skipped>] start outside any testcase
    (nesting level 0) fails the assertion of its method and aborts the
    parse. *)
Theorem status_outside_testcase_aborts cfg st n a rest :
  testcase_level st = 0%Z ->
  status_child n <> None ->
  exists st', run cfg (StartElement n a :: rest) st = (inl AssertionError, st').
Proof.
  intros Hl Hs. unfold status_child in Hs.
  eexists. apply run_cons_err.
  destruct (String.eqb_spec n "error") as [->|_];
    [|destruct (String.eqb_spec n "failure") as [->|_];
      [|destruct (String.eqb_spec n "skipped") as [->|_]; [|contradiction Hs; reflexivity]]];
  unfold handle, startElement; rewrite bind_modify; simpl;
  cbv [start_error start_failure start_skipped]; rewrite bind_gets; simpl;
  rewrite Hl; reflexivity.
Qed.

Lemma status_outside_testcase_aborts_witness :
  testcase_level init_state = 0%Z /\ status_child "failure" <> None /\
  exists st', run cfg_empty [StartElement "failure" [("message", "m")]] init_state
              = (inl AssertionError, st').
Proof.
  split; [reflexivity|]. split; [discriminate|].
  apply status_outside_testcase_aborts; [reflexivity | discriminate].
Defined.

(** ** The testcase counter *)

Lemma handle_preserves_num cfg e :
  match e with StartElement n _ => String.eqb n "testcase" = false | _ => True end ->
  preserves num_testcases (handle cfg e).
Proof.
  intros He. destruct e as [n a|n|c]; unfold handle.
  - unfold startElement.
    apply preserves_bind; [apply preserves_modify; reflexivity | intros _].
    cbv zeta. rewrite start_method_name. unfold start_method.
    destruct (String.eqb _ "_start_testsuites"); [apply preserves_ret|].
    destruct (String.eqb _ "_start_testsuite"); [apply start_testsuite_preserves_num|].
    destruct (String.eqb _ "_start_testcase") eqn:E3;
      [method_is E3 "testcase"; subst; discriminate|].
    repeat match goal with
           | |- context [if ?b then _ else _] => destruct b
           end;
      cbv [start_error start_failure start_skipped start_system_out start_system_err];
      solve_preserves.
  - unfold endElement. cbv zeta. rewrite end_method_name.
    destruct (String.eqb n "testcase"); [unfold end_testcase|]; solve_preserves.
  - unfold characters. solve_preserves.
Qed.

Lemma handle_num cfg e st st' :
  handle cfg e st = (inr tt, st') ->
  num_testcases st' = (num_testcases st +
    match e with StartElement n _ => if String.eqb n "testcase" then 1 else 0 | _ => 0 end)%Z.
Proof.
  intros H. destruct e as [n a|n|c].
  - destruct (String.eqb n "testcase") eqn:Hn.
    + apply String.eqb_eq in Hn. subst n.
      destruct (start_testcase_inv cfg a st st' H) as [Hl Hc].
      destruct (start_testcase_step cfg a st Hl Hc) as (st1 & E & _ & N & _).
      rewrite E in H. injection H as <-. exact N.
    + pose proof (preserves_result _ _ _ _ _
                   (handle_preserves_num cfg (StartElement n a) Hn) H) as Hp.
      simpl in Hp. lia.
  - pose proof (preserves_result _ _ _ _ _ (handle_preserves_num cfg (EndElement n) I) H) as Hp.
    simpl in Hp. lia.
  - pose proof (preserves_result _ _ _ _ _ (handle_preserves_num cfg (Characters c) I) H) as Hp.
    simpl in Hp. lia.
Qed.

(** C2: whenever a sequence of events is handled, the testcase counter grows
    by the number of [<testcase>] start events in it, malformed ones
    (without [name]) included. *)
Theorem num_testcases_counts_starts cfg evs st st' :
  run cfg evs st = (inr tt, st') ->
  num_testcases st' = (num_testcases st + Z.of_nat (count_testcase_starts evs))%Z.
Proof.
  revert st. induction evs as [|e evs IH]; intros st H.
  - simpl in H. injection H as <-. simpl. lia.
  - simpl in H. destruct (handle cfg e st) as [[ex|[]] st1] eqn:E.
    + rewrite (bind_err _ _ _ _ _ E) in H. discriminate H.
    + rewrite (bind_ok _ _ _ _ _ E) in H.
      rewrite (IH st1 H), (handle_num cfg e st st1 E).
      unfold count_testcase_starts. simpl filter.
      destruct e as [n a|n|c]; [destruct (String.eqb n "testcase")|..];
        simpl length; lia.
Qed.

Lemma num_testcases_counts_starts_witness :
  run cfg_empty events_two_testcases init_state
    = (inr tt, snd (run cfg_empty events_two_testcases init_state)) /\
  num_testcases (snd (run cfg_empty events_two_testcases init_state))
    = (num_testcases init_state + Z.of_nat (count_testcase_starts events_two_testcases))%Z.
Proof.
  assert (H : run cfg_empty events_two_testcases init_state
              = (inr tt, snd (run cfg_empty events_two_testcases init_state)))
    by (vm_compute; reflexivity).
  split; [exact H|].
  exact (num_testcases_counts_starts cfg_empty events_two_testcases init_state _ H).
Defined.

(** ** The prefixes of [_pytest_fullname] *)

Lemma string_app_assoc (x y z : string) : (x ++ y) ++ z = x ++ (y ++ z).
Proof. induction x as [|c x IH]; simpl; [reflexivity | now rewrite IH]. Qed.

(** C6 (as the code does it): the add prefix is prepended to every
    reconstructed path, after the optional strip, with no check of what the
    path already starts with. *)
Theorem add_prefix_always_prepended cfg test_class test_name :
  pytest_fullname cfg test_class test_name
  = h_add_prefix cfg ++
    pytest_fullname (mk_config (h_show cfg) (h_junitxml cfg) (h_strip_prefix cfg) ""
                               (h_report_passing cfg) (h_report_errors cfg)
                               (h_report_skips cfg))
                    test_class test_name.
Proof.
  unfold pytest_fullname. simpl.
  destruct test_class as [tc|];
    [destruct (str_truthy (rpartition_tail "." tc) &&
               negb (py_startswith (rpartition_tail "." tc) "Test"))|];
    simpl;
    match goal with |- context [if ?b then _ else _] => destruct b end;
    rewrite ?string_app_assoc; reflexivity.
Qed.

(** C6 as stated fails: the path [tests/test_mod.py] already starts with the
    add prefix [tests/] and still gets it prepended. *)
Lemma add_prefix_double_counterexample :
  py_startswith "tests/test_mod.py" (h_add_prefix cfg_add_tests) = true /\
  pytest_fullname cfg_add_tests (Some "tests.test_mod") "test_func"
  = "tests/tests/test_mod.py::test_func".
Proof. split; reflexivity. Qed.

(** ** The [file] attribute *)

(** C5 (as the code does it): [_start_testcase] never reads [file]; the
    identity is [_pytest_fullname(classname, name)], so two testcases whose
    [name] and [classname] agree get the same identity whatever their [file]
    attributes. *)
Theorem identity_ignores_file cfg st st' a a' st1 st1' :
  handle cfg (StartElement "testcase" a) st = (inr tt, st1) ->
  handle cfg (StartElement "testcase" a') st' = (inr tt, st1') ->
  attrs_get a "name" = attrs_get a' "name" ->
  attrs_get a "classname" = attrs_get a' "classname" ->
  cur_test st1 = testcase_identity cfg a /\ cur_test st1 = cur_test st1'.
Proof.
  intros H H' Hn Hc.
  destruct (start_testcase_inv cfg a st st1 H) as [Hl Hk].
  destruct (start_testcase_step cfg a st Hl Hk) as (s1 & E & _ & _ & _ & _ & _ & T).
  destruct (start_testcase_inv cfg a' st' st1' H') as [Hl' Hk'].
  destruct (start_testcase_step cfg a' st' Hl' Hk') as (s1' & E' & _ & _ & _ & _ & _ & T').
  rewrite E in H. injection H as <-. rewrite E' in H'. injection H' as <-.
  rewrite T, T'. unfold testcase_identity. rewrite Hn, Hc. split; reflexivity.
Qed.

Lemma identity_ignores_file_witness :
  handle cfg_empty (StartElement "testcase" attrs_c5_file) init_state
    = (inr tt, snd (handle cfg_empty (StartElement "testcase" attrs_c5_file) init_state)) /\
  handle cfg_empty (StartElement "testcase" attrs_c5_nofile) init_state
    = (inr tt, snd (handle cfg_empty (StartElement "testcase" attrs_c5_nofile) init_state)) /\
  attrs_get attrs_c5_file "name" = attrs_get attrs_c5_nofile "name" /\
  attrs_get attrs_c5_file "classname" = attrs_get attrs_c5_nofile "classname" /\
  cur_test (snd (handle cfg_empty (StartElement "testcase" attrs_c5_file) init_state))
    = testcase_identity cfg_empty attrs_c5_file /\
  cur_test (snd (handle cfg_empty (StartElement "testcase" attrs_c5_file) init_state))
    = cur_test (snd (handle cfg_empty (StartElement "testcase" attrs_c5_nofile) init_state)).
Proof.
  assert (H1 : handle cfg_empty (StartElement "testcase" attrs_c5_file) init_state
    = (inr tt, snd (handle cfg_empty (StartElement "testcase" attrs_c5_file) init_state)))
    by reflexivity.
  assert (H2 : handle cfg_empty (StartElement "testcase" attrs_c5_nofile) init_state
    = (inr tt, snd (handle cfg_empty (StartElement "testcase" attrs_c5_nofile) init_state)))
    by reflexivity.
  split; [exact H1|]. split; [exact H2|]. split; [reflexivity|]. split; [reflexivity|].
  exact (identity_ignores_file cfg_empty init_state init_state attrs_c5_file attrs_c5_nofile
           _ _ H1 H2 eq_refl eq_refl).
Defined.

(** C5 as stated fails: the module path from [file] ([tests/TestMod]) is
    the classname's module path plus its last component, yet that component
    is kept as a class name. *)
Lemma file_heuristic_counterexample :
  fst (handle cfg_empty (StartElement "testcase" attrs_module_named_test) init_state)
    = inr tt /\
  cur_test (snd (handle cfg_empty (StartElement "testcase" attrs_module_named_test) init_state))
    = Some "tests.py::TestMod::test_f" /\
  cur_test (snd (handle cfg_empty (StartElement "testcase" attrs_module_named_test) init_state))
    <> Some "tests/TestMod.py::test_f".
Proof. split; [reflexivity|]. split; [reflexivity | discriminate]. Qed.

(** ** The [<testsuite>] header *)

(** C7 (as the code does it): a [<testsuite>] start with neither [skips]
    nor [skipped] raises [KeyError('skipped')], which aborts the parse; the
    errors, failures, tests and time fields were assigned before the raise,
    and the expected skip count keeps its previous value. *)
Theorem testsuite_without_skips_aborts cfg st a rest es fs ts tms ne nf nt tq :
  attrs_get a "errors" = Some es -> py_int es = Some ne ->
  attrs_get a "failures" = Some fs -> py_int fs = Some nf ->
  attrs_get a "tests" = Some ts -> py_int ts = Some nt ->
  attrs_get a "time" = Some tms -> py_float tms = Some tq ->
  attrs_get a "skips" = None -> attrs_get a "skipped" = None ->
  exists st',
    run cfg (StartElement "testsuite" a :: rest) st = (inl (KeyError "skipped"), st') /\
    expected_num_errors st' = Some ne /\ expected_num_failures st' = Some nf /\
    expected_num_tests st' = Some nt /\ total_time_sec st' = Some tq /\
    expected_num_skips st' = expected_num_skips st.
Proof.
  intros He Hne Hf Hnf Ht Hnt Htm Htq Hs Hsd.
  unfold run, handle, startElement.
  change (start_method cfg (py_replace "-" "_" ("_start_" ++ "testsuite")))
    with (Some start_testsuite).
  cbv [start_testsuite bind modify gets ret raise lift_opt attrs_item py_int_m py_float_m].
  destruct (opt_str_eqb _ _);
    repeat match goal with
           | H : ?x = _ |- context [?x] => rewrite H; cbv beta iota
           end;
    (eexists; split; [reflexivity | repeat split]).
Qed.

Lemma testsuite_without_skips_aborts_witness :
  let a := [("name", "pytest"); ("errors", "0"); ("failures", "1");
            ("tests", "4"); ("time", "0.5")] in
  attrs_get a "errors" = Some "0" /\ py_int "0" = Some 0%Z /\
  attrs_get a "failures" = Some "1" /\ py_int "1" = Some 1%Z /\
  attrs_get a "tests" = Some "4" /\ py_int "4" = Some 4%Z /\
  attrs_get a "time" = Some "0.5" /\ py_float "0.5" = Some (5 # 10)%Q /\
  attrs_get a "skips" = None /\ attrs_get a "skipped" = None /\
  exists st',
    run cfg_empty (StartElement "testsuite" a :: [EndElement "testsuite"]) init_state
      = (inl (KeyError "skipped"), st') /\
    expected_num_errors st' = Some 0%Z /\ expected_num_failures st' = Some 1%Z /\
    expected_num_tests st' = Some 4%Z /\ total_time_sec st' = Some (5 # 10)%Q /\
    expected_num_skips st' = expected_num_skips init_state.
Proof.
  intros a.
  do 10 (split; [reflexivity|]).
  apply testsuite_without_skips_aborts with (es := "0") (fs := "1") (ts := "4") (tms := "0.5");
    reflexivity.
Defined.

(** C7 as stated fails: the parse does not complete, the handler raises
    [KeyError('skipped')] and the events after the [<testsuite>] start are
    never handled. *)
Lemma testsuite_without_skips_counterexample :
  fst (run cfg_empty
         [StartElement "testsuite" attrs_no_skips;
          StartElement "testcase" [("classname", "tests.test_mod"); ("name", "test_f")];
          EndElement "testcase"; EndElement "testsuite"] init_state)
  = inl (KeyError "skipped") /\
  num_testcases (snd (run cfg_empty
         [StartElement "testsuite" attrs_no_skips;
          StartElement "testcase" [("classname", "tests.test_mod"); ("name", "test_f")];
          EndElement "testcase"; EndElement "testsuite"] init_state)) = 0%Z.
Proof. split; reflexivity. Qed.

(** ** The end of the event stream *)

(** C9 as stated fails: a stream that ends inside a testcase is handled
    without exception, and the report lists no warning; the unfinished
    testcase is counted but filed in no list.  (In [main], [xml.sax.parse]
    itself raises [SAXParseException] at the end of a truncated file, so
    [report] is not reached there.) *)
Lemma truncated_report_counterexample :
  fst (run cfg_all_lists events_truncated init_state) = inr tt /\
  testcase_level (snd (run cfg_all_lists events_truncated init_state)) = 1%Z /\
  report cfg_all_lists (snd (run cfg_all_lists events_truncated init_state))
  = ([[PStr "Report on JUnit XML file "; PStr "junit.xml"; PStr ":"];
      [PStr "Stats from the <testsuites> tag:"];
      [PInt 1; PStr " errors (errors + failures)"];
      [PInt 2; PStr " skips (skips + xfails)"];
      [PInt 5; PStr " tests total."]; [];
      [PStr "Stats from the body of the report:"];
      [PStr "Number of errors: "; PInt 0; PStr " (errors + failures)"];
      [PStr "Number of skips (skips + xfails): "; PInt 0];
      [PStr "Number of <testcase> tags: "; PInt 1]; [];
      [PStr "Total test suite run time: "; PFloat (125 # 100); PStr " seconds"];
      []; [PInt 0; PStr " passing tests:"]; [];
      [PInt 0; PStr " tests with status SKIP:"]; [];
      [PInt 0; PStr " tests with status ERROR or FAIL:"]], None).
Proof. split; [reflexivity|]. split; [reflexivity|]. vm_compute. reflexivity. Qed.

(** * Further properties of the handler *)

(** ** [str.split], [str.rpartition] and [str.join] *)

Lemma py_split_nonempty c s : py_split c s <> [].
Proof.
  destruct s as [|a s]; simpl; [discriminate|].
  destruct (Ascii.eqb a c); [discriminate|].
  destruct (py_split c s); discriminate.
Qed.

Lemma py_split_no_sep c t : has_char c t = false -> py_split c t = [t].
Proof.
  induction t as [|a t IH]; simpl; intros H; [reflexivity|].
  apply orb_false_iff in H as [Ha Ht]. rewrite Ha, (IH Ht). reflexivity.
Qed.

(** [(x + c + y).split(c) == x.split(c) + y.split(c)] *)
Lemma py_split_sep c x y :
  py_split c (x ++ String c y) = app (py_split c x) (py_split c y).
Proof.
  induction x as [|a x IH]; simpl.
  - rewrite Ascii.eqb_refl. reflexivity.
  - rewrite IH. destruct (Ascii.eqb a c); [reflexivity|].
    destruct (py_split c x) as [|p ps] eqn:E; [exfalso; exact (py_split_nonempty c x E)|].
    reflexivity.
Qed.

Lemma concat_cons_char sep a p ps :
  String.concat sep (String a p :: ps) = String a (String.concat sep (p :: ps)).
Proof. destruct ps; reflexivity. Qed.

(** ["/".join(s.split(".")) == s.replace(".", "/")] *)
Lemma join_split_replace s :
  py_join "/" (py_split "." s) = py_replace "." "/" s.
Proof.
  unfold py_join. induction s as [|a s IH]; simpl; [reflexivity|].
  destruct (Ascii.eqb a ".").
  - destruct (py_split "." s) as [|p ps] eqn:E;
      [exfalso; exact (py_split_nonempty "." s E)|].
    rewrite <- IH. reflexivity.
  - destruct (py_split "." s) as [|p ps] eqn:E;
      [exfalso; exact (py_split_nonempty "." s E)|].
    rewrite concat_cons_char, IH. reflexivity.
Qed.

Lemma rpartition_tail_no_sep c t : has_char c t = false -> rpartition_tail c t = t.
Proof.
  destruct t as [|a t]; simpl; intros H; [reflexivity|].
  apply orb_false_iff in H as [Ha Ht]. rewrite Ht, Ha. reflexivity.
Qed.

Lemma has_char_app c x y : has_char c (x ++ y) = has_char c x || has_char c y.
Proof. induction x as [|a x IH]; simpl; [reflexivity|]. rewrite IH, orb_assoc. reflexivity. Qed.

Lemma rpartition_tail_sep c x t :
  has_char c t = false -> rpartition_tail c (x ++ String c t) = t.
Proof.
  intros Ht. induction x as [|a x IH]; simpl.
  - rewrite Ht, Ascii.eqb_refl. reflexivity.
  - rewrite has_char_app. simpl. rewrite Ascii.eqb_refl. simpl. rewrite orb_true_r. exact IH.
Qed.

(** A string is cut at its last separator. *)
Lemma last_sep_split c s :
  has_char c s = true -> exists x t, s = x ++ String c t /\ has_char c t = false.
Proof.
  induction s as [|a s IH]; simpl; [discriminate|]. intros H.
  destruct (has_char c s) eqn:Hs.
  - destruct (IH eq_refl) as (x & t & -> & Ht). exists (String a x), t. auto.
  - rewrite orb_false_r in H. apply Ascii.eqb_eq in H. subst a.
    exists "", s. auto.
Qed.

(** [s.split(c)[:-1] + [s.rpartition(c)[-1]] == s.split(c)] *)
Lemma split_last_component c s :
  app (drop_last (py_split c s)) [rpartition_tail c s] = py_split c s.
Proof.
  unfold drop_last. destruct (has_char c s) eqn:H.
  - destruct (last_sep_split c s H) as (x & t & -> & Ht).
    rewrite py_split_sep, (py_split_no_sep c t Ht), removelast_last,
      (rpartition_tail_sep c x t Ht). reflexivity.
  - rewrite (py_split_no_sep c s H), (rpartition_tail_no_sep c s H). reflexivity.
Qed.

(** ** Prefix removal *)

Lemma prefix_app p r : String.prefix p (p ++ r) = true.
Proof.
  induction p as [|a p IH]; simpl; [destruct r; reflexivity|].
  destruct (ascii_dec a a) as [_|n]; [exact IH | contradiction n; reflexivity].
Qed.

Lemma startswith_app p r : py_startswith (p ++ r) p = true.
Proof. apply prefix_app. Qed.

Lemma substring_all s : String.substring 0 (String.length s) s = s.
Proof. induction s as [|a s IH]; simpl; [reflexivity | now rewrite IH]. Qed.

Lemma string_length_app x y : String.length (x ++ y) = (String.length x + String.length y)%nat.
Proof. induction x as [|a x IH]; simpl; [reflexivity | now rewrite IH]. Qed.

Lemma slice_from_app p r : py_slice_from (String.length p) (p ++ r) = r.
Proof.
  unfold py_slice_from. rewrite string_length_app.
  replace (String.length p + String.length r - String.length p)%nat
    with (String.length r) by lia.
  induction p as [|a p IH]; simpl; [apply substring_all | exact IH].
Qed.

Lemma startswith_Test_truthy t : py_startswith t "Test" = true -> str_truthy t = true.
Proof. destruct t; [discriminate | reflexivity]. Qed.

(** ** [_pytest_fullname] in general *)

(** A classname whose last component does not look like a test class names
    a test module: every component becomes a directory or the file, and the
    identity is [<add><c with dots as slashes>.py::<name>] (when the strip
    prefix does not apply). *)
Theorem fullname_module_function cfg c n :
  str_truthy (rpartition_tail "." c) = true ->
  py_startswith (rpartition_tail "." c) "Test" = false ->
  str_truthy (h_strip_prefix cfg)
    && py_startswith (py_replace "." "/" c ++ ".py") (h_strip_prefix cfg) = false ->
  pytest_fullname cfg (Some c) n
  = h_add_prefix cfg ++ py_replace "." "/" c ++ ".py" ++ "::" ++ n.
Proof.
  intros Ht Hs Hp. unfold pytest_fullname.
  rewrite Ht, Hs. simpl (true && negb false).
  cbv iota beta zeta.
  rewrite split_last_component, join_split_replace, Hp. simpl str_truthy.
  cbv iota. rewrite !string_app_assoc. reflexivity.
Qed.

Lemma fullname_module_function_witness :
  pytest_fullname cfg_empty (Some "pkg.tests.test_mod") "test_x"
  = "pkg/tests/test_mod.py::test_x".
Proof.
  apply (fullname_module_function cfg_empty "pkg.tests.test_mod" "test_x");
    reflexivity.
Defined.

(** A classname [m.T] whose last component [T] starts with [Test] names a
    test class [T] in module [m]: the identity is
    [<add><m with dots as slashes>.py::T::<name>]. *)
Theorem fullname_class_method cfg m t n :
  has_char "." t = false ->
  py_startswith t "Test" = true ->
  str_truthy (h_strip_prefix cfg)
    && py_startswith (py_replace "." "/" m ++ ".py") (h_strip_prefix cfg) = false ->
  pytest_fullname cfg (Some (m ++ String "." t)) n
  = h_add_prefix cfg ++ py_replace "." "/" m ++ ".py" ++ "::" ++ t ++ "::" ++ n.
Proof.
  intros Hd Hs Hp. unfold pytest_fullname.
  rewrite (rpartition_tail_sep "." m t Hd), Hs, (startswith_Test_truthy t Hs).
  simpl (true && negb true). cbv iota beta zeta.
  unfold drop_last. rewrite py_split_sep, (py_split_no_sep "." t Hd), removelast_last.
  rewrite join_split_replace, Hp. cbv iota.
  rewrite (startswith_Test_truthy t Hs), !string_app_assoc. reflexivity.
Qed.

Lemma fullname_class_method_witness :
  pytest_fullname cfg_empty (Some ("tests.test_mod" ++ String "." "TestFoo")) "test_bar"
  = "tests/test_mod.py::TestFoo::test_bar".
Proof.
  apply (fullname_class_method cfg_empty "tests.test_mod" "TestFoo" "test_bar");
    reflexivity.
Defined.

(** A non-empty strip prefix that starts the module path is removed from it
    before the add prefix is put in front. *)
Theorem fullname_strip_prefix cfg c n r :
  str_truthy (rpartition_tail "." c) = true ->
  py_startswith (rpartition_tail "." c) "Test" = false ->
  str_truthy (h_strip_prefix cfg) = true ->
  py_replace "." "/" c ++ ".py" = h_strip_prefix cfg ++ r ->
  pytest_fullname cfg (Some c) n = h_add_prefix cfg ++ r ++ "::" ++ n.
Proof.
  intros Ht Hs Hn Hr. unfold pytest_fullname.
  rewrite Ht, Hs. simpl (true && negb false).
  cbv iota beta zeta.
  rewrite split_last_component, join_split_replace, Hr, Hn, startswith_app.
  simpl (true && true). cbv iota.
  rewrite slice_from_app. change (str_truthy "") with false. cbv iota.
  rewrite string_app_assoc. reflexivity.
Qed.

Lemma fullname_strip_prefix_witness :
  pytest_fullname (mk_config None "junit.xml" "src/" "/repo/" false false false)
    (Some "src.pkg.test_mod") "test_x"
  = "/repo/pkg/test_mod.py::test_x".
Proof.
  exact (fullname_strip_prefix
           (mk_config None "junit.xml" "src/" "/repo/" false false false)
           "src.pkg.test_mod" "test_x" "pkg/test_mod.py"
           eq_refl eq_refl eq_refl eq_refl).
Defined.

(** ** What each event can change *)

(** A part [f] of the state that the callbacks' own assignments leave
    alone, and that the methods an event can reach preserve, is preserved
    by the event. *)
Lemma handle_preserves {B} (f : state -> B) cfg e :
  match e with
  | StartElement n a =>
      (forall v st, f (set_cur_tag v st) = f st) /\
      (forall v st, f (set_unhandled_tags v st) = f st) /\
      (n = "testsuite" -> preserves f (start_testsuite a)) /\
      (n = "testcase" -> preserves f (start_testcase cfg a)) /\
      (n = "error" -> preserves f (start_error a)) /\
      (n = "failure" -> preserves f (start_failure a)) /\
      (n = "skipped" -> preserves f (start_skipped a))
  | EndElement n => n = "testcase" -> preserves f end_testcase
  | Characters _ => forall v st, f (set_show_text v st) = f st
  end ->
  preserves f (handle cfg e).
Proof.
  destruct e as [n a|n|c]; unfold handle.
  - intros (Hc & Hu & Hs & Ht & He & Hf & Hk). unfold startElement.
    apply preserves_bind; [apply preserves_modify; exact (Hc n) | intros _].
    cbv zeta. rewrite start_method_name. unfold start_method.
    destruct (String.eqb _ "_start_testsuites"); [apply preserves_ret|].
    destruct (String.eqb _ "_start_testsuite") eqn:E2;
      [method_is E2 "testsuite"; exact (Hs E2)|].
    destruct (String.eqb _ "_start_testcase") eqn:E3;
      [method_is E3 "testcase"; exact (Ht E3)|].
    destruct (String.eqb _ "_start_error") eqn:E4;
      [method_is E4 "error"; exact (He E4)|].
    destruct (String.eqb _ "_start_failure") eqn:E5;
      [method_is E5 "failure"; exact (Hf E5)|].
    destruct (String.eqb _ "_start_skipped") eqn:E6;
      [method_is E6 "skipped"; exact (Hk E6)|].
    destruct (String.eqb _ "_start_system_out");
      [cbv [start_system_out]; solve_preserves|].
    destruct (String.eqb _ "_start_system_err");
      [cbv [start_system_err]; solve_preserves|].
    apply preserves_modify. intros st. apply Hu.
  - intros He. unfold endElement. cbv zeta. rewrite end_method_name.
    destruct (String.eqb_spec n "testcase"); [exact (He e) | apply preserves_ret].
  - intros Hs. unfold characters.
    apply preserves_bind; [apply preserves_gets | intros lvl].
    apply preserves_bind; [apply preserves_gets | intros tag].
    destruct (_ || _ || _); [apply preserves_ret|].
    apply preserves_bind; [apply preserves_gets | intros ct].
    destruct (opt_str_eqb _ _); [|apply preserves_ret].
    apply preserves_modify. intros st. apply Hs.
Qed.

(** The [<error>], [<failure>] and [<skipped>] starts, run symbolically. *)
Lemma start_error_step cfg a st :
  handle cfg (StartElement "error" a) st =
  if (testcase_level st =? 1)%Z
  then (inr tt, set_cur_status (Some "ERROR")
                  (set_num_errors (num_errors st + 1) (set_cur_tag "error" st)))
  else (inl AssertionError, set_cur_tag "error" st).
Proof.
  unfold handle, startElement. rewrite bind_modify. cbv zeta.
  change (start_method cfg (py_replace "-" "_" ("_start_" ++ "error")))
    with (Some start_error). cbv beta iota.
  unfold start_error. rewrite bind_gets. simpl.
  destruct (testcase_level st =? 1)%Z; reflexivity.
Qed.

Lemma start_failure_step cfg a st :
  handle cfg (StartElement "failure" a) st =
  if (testcase_level st =? 1)%Z
  then (inr tt, set_cur_status (Some "FAIL")
                  (set_num_failures (num_failures st + 1) (set_cur_tag "failure" st)))
  else (inl AssertionError, set_cur_tag "failure" st).
Proof.
  unfold handle, startElement. rewrite bind_modify. cbv zeta.
  change (start_method cfg (py_replace "-" "_" ("_start_" ++ "failure")))
    with (Some start_failure). cbv beta iota.
  unfold start_failure. rewrite bind_gets. simpl.
  destruct (testcase_level st =? 1)%Z; reflexivity.
Qed.

Lemma start_skipped_step cfg a st :
  handle cfg (StartElement "skipped" a) st =
  if (testcase_level st =? 1)%Z
  then (inr tt, set_cur_status (Some "SKIP")
                  (set_num_skips (num_skips st + 1) (set_cur_tag "skipped" st)))
  else (inl AssertionError, set_cur_tag "skipped" st).
Proof.
  unfold handle, startElement. rewrite bind_modify. cbv zeta.
  change (start_method cfg (py_replace "-" "_" ("_start_" ++ "skipped")))
    with (Some start_skipped). cbv beta iota.
  unfold start_skipped. rewrite bind_gets. simpl.
  destruct (testcase_level st =? 1)%Z; reflexivity.
Qed.

(** Discharges the side conditions of [handle_preserves] for a part of the
    state that the methods at hand do not assign. *)
Ltac preserves_side :=
  cbv beta iota;
  repeat match goal with
  | |- _ /\ _ => split
  | |- forall (_ : _) (_ : state), _ = _ => intros; reflexivity
  | |- _ = _ -> _ =>
      let E := fresh in
      intros E; subst;
      first [congruence
            | cbv [start_testsuite start_testcase start_error start_failure
                   start_skipped end_testcase]; solve_preserves]
  end.

Lemma dict_total_append {V} (d : dict (list V)) k v :
  dict_total (dd_append d k v) = S (dict_total d).
Proof.
  unfold dd_append, dd_list.
  induction d as [|[k' l'] d IH]; simpl; [reflexivity|].
  destruct (String.eqb k' k); simpl.
  - rewrite length_app. simpl. lia.
  - rewrite IH. lia.
Qed.

(** Sums of per-event increments over a run. *)
Lemma run_additive cfg (f : state -> Z) (w : event -> Z) evs st st' :
  (forall e s s', handle cfg e s = (inr tt, s') -> f s' = (f s + w e)%Z) ->
  run cfg evs st = (inr tt, st') ->
  f st' = (f st + fold_right Z.add 0 (map w evs))%Z.
Proof.
  intros Hw. revert st. induction evs as [|e evs IH]; intros st H.
  - simpl in H. injection H as <-. simpl. lia.
  - simpl in H. destruct (handle cfg e st) as [[ex|[]] st1] eqn:E.
    + rewrite (bind_err _ _ _ _ _ E) in H. discriminate H.
    + rewrite (bind_ok _ _ _ _ _ E) in H.
      rewrite (IH st1 H), (Hw e st st1 E). simpl. lia.
Qed.

Lemma sum_indicator (p : event -> bool) evs :
  fold_right Z.add 0%Z (map (fun e => if p e then 1%Z else 0%Z) evs)
  = Z.of_nat (length (filter p evs)).
Proof.
  induction evs as [|e evs IH]; simpl; [reflexivity|].
  destruct (p e); simpl length; rewrite IH; lia.
Qed.

Lemma run_counts cfg (f : state -> Z) (p : event -> bool) evs st st' :
  (forall e s s', handle cfg e s = (inr tt, s') ->
                  f s' = (f s + if p e then 1 else 0)%Z) ->
  run cfg evs st = (inr tt, st') ->
  f st' = (f st + Z.of_nat (length (filter p evs)))%Z.
Proof.
  intros Hw H. rewrite <- sum_indicator. exact (run_additive cfg f _ evs st st' Hw H).
Qed.

Lemma handle_num_errors cfg e st st' :
  handle cfg e st = (inr tt, st') ->
  num_errors st' = (num_errors st + if start_is "error" e then 1 else 0)%Z.
Proof.
  intros H. destruct e as [n a|n|c]; unfold start_is; cbv beta iota.
  - destruct (String.eqb_spec n "error") as [->|Hn].
    + rewrite start_error_step in H.
      destruct (testcase_level st =? 1)%Z; [|discriminate H].
      injection H as <-. simpl. reflexivity.
    + pose proof (preserves_result _ _ _ _ _
        (handle_preserves num_errors cfg (StartElement n a) ltac:(preserves_side)) H)
        as Hp. simpl in Hp. lia.
  - pose proof (preserves_result _ _ _ _ _
      (handle_preserves num_errors cfg (EndElement n) ltac:(preserves_side)) H)
      as Hp. simpl in Hp. cbv iota. lia.
  - pose proof (preserves_result _ _ _ _ _
      (handle_preserves num_errors cfg (Characters c) ltac:(preserves_side)) H)
      as Hp. simpl in Hp. cbv iota. lia.
Qed.

Lemma handle_num_failures cfg e st st' :
  handle cfg e st = (inr tt, st') ->
  num_failures st' = (num_failures st + if start_is "failure" e then 1 else 0)%Z.
Proof.
  intros H. destruct e as [n a|n|c]; unfold start_is; cbv beta iota.
  - destruct (String.eqb_spec n "failure") as [->|Hn].
    + rewrite start_failure_step in H.
      destruct (testcase_level st =? 1)%Z; [|discriminate H].
      injection H as <-. simpl. reflexivity.
    + pose proof (preserves_result _ _ _ _ _
        (handle_preserves num_failures cfg (StartElement n a) ltac:(preserves_side)) H)
        as Hp. simpl in Hp. lia.
  - pose proof (preserves_result _ _ _ _ _
      (handle_preserves num_failures cfg (EndElement n) ltac:(preserves_side)) H)
      as Hp. simpl in Hp. cbv iota. lia.
  - pose proof (preserves_result _ _ _ _ _
      (handle_preserves num_failures cfg (Characters c) ltac:(preserves_side)) H)
      as Hp. simpl in Hp. cbv iota. lia.
Qed.

Lemma handle_num_skips cfg e st st' :
  handle cfg e st = (inr tt, st') ->
  num_skips st' = (num_skips st + if start_is "skipped" e then 1 else 0)%Z.
Proof.
  intros H. destruct e as [n a|n|c]; unfold start_is; cbv beta iota.
  - destruct (String.eqb_spec n "skipped") as [->|Hn].
    + rewrite start_skipped_step in H.
      destruct (testcase_level st =? 1)%Z; [|discriminate H].
      injection H as <-. simpl. reflexivity.
    + pose proof (preserves_result _ _ _ _ _
        (handle_preserves num_skips cfg (StartElement n a) ltac:(preserves_side)) H)
        as Hp. simpl in Hp. lia.
  - pose proof (preserves_result _ _ _ _ _
      (handle_preserves num_skips cfg (EndElement n) ltac:(preserves_side)) H)
      as Hp. simpl in Hp. cbv iota. lia.
  - pose proof (preserves_result _ _ _ _ _
      (handle_preserves num_skips cfg (Characters c) ltac:(preserves_side)) H)
      as Hp. simpl in Hp. cbv iota. lia.
Qed.

Lemma handle_level cfg e st st' :
  handle cfg e st = (inr tt, st') ->
  testcase_level st' = (testcase_level st + (if start_is "testcase" e then 1 else 0)
                        - (if end_is "testcase" e then 1 else 0))%Z.
Proof.
  intros H. destruct e as [n a|n|c]; unfold start_is, end_is; cbv beta iota.
  - destruct (String.eqb_spec n "testcase") as [->|Hn].
    + destruct (start_testcase_inv cfg a st st' H) as [Hl Hc].
      destruct (start_testcase_step cfg a st Hl Hc) as (st1 & E & L & _).
      rewrite E in H. injection H as <-. lia.
    + pose proof (preserves_result _ _ _ _ _
        (handle_preserves testcase_level cfg (StartElement n a) ltac:(preserves_side)) H)
        as Hp. simpl in Hp. lia.
  - destruct (String.eqb_spec n "testcase") as [->|Hn].
    + destruct (end_testcase_step cfg st) as (st1 & E & L & _).
      rewrite E in H. injection H as <-. lia.
    + pose proof (preserves_result _ _ _ _ _
        (handle_preserves testcase_level cfg (EndElement n) ltac:(preserves_side)) H)
        as Hp. simpl in Hp. lia.
  - pose proof (preserves_result _ _ _ _ _
      (handle_preserves testcase_level cfg (Characters c) ltac:(preserves_side)) H)
      as Hp. simpl in Hp. lia.
Qed.

Lemma handle_filed cfg e st st' :
  handle cfg e st = (inr tt, st') ->
  filed_count st' = (filed_count st + if end_is "testcase" e then 1 else 0)%nat.
Proof.
  intros H. destruct e as [n a|n|c]; unfold end_is; cbv beta iota.
  - pose proof (preserves_result _ _ _ _ _
      (handle_preserves filed_count cfg (StartElement n a) ltac:(preserves_side)) H)
      as Hp. simpl in Hp. lia.
  - destruct (String.eqb_spec n "testcase") as [->|Hn].
    + destruct (end_testcase_step cfg st) as (st1 & E & _ & _ & _ & _ & B).
      rewrite E in H. injection H as <-. unfold filed_count.
      destruct (cur_status st) as [s|]; [destruct (str_truthy s)|];
        destruct B as [B1 B2]; rewrite B1, B2;
        rewrite ?dict_total_append, ?length_app; simpl; lia.
    + pose proof (preserves_result _ _ _ _ _
        (handle_preserves filed_count cfg (EndElement n) ltac:(preserves_side)) H)
        as Hp. simpl in Hp. lia.
  - pose proof (preserves_result _ _ _ _ _
      (handle_preserves filed_count cfg (Characters c) ltac:(preserves_side)) H)
      as Hp. simpl in Hp. lia.
Qed.

(** ** Counters and nesting over a whole run *)

(** [num_errors], [num_failures] and [num_skips] grow by the number of
    [<error>], [<failure>] and [<skipped>] starts handled, whatever status
    the testcase is finally filed under. *)
Theorem status_counters cfg evs st st' :
  run cfg evs st = (inr tt, st') ->
  num_errors st' = (num_errors st + Z.of_nat (count_start_events "error" evs))%Z /\
  num_failures st' = (num_failures st + Z.of_nat (count_start_events "failure" evs))%Z /\
  num_skips st' = (num_skips st + Z.of_nat (count_start_events "skipped" evs))%Z.
Proof.
  intros H. unfold count_start_events. split; [|split].
  - exact (run_counts cfg num_errors (start_is "error") evs st st' (handle_num_errors cfg) H).
  - exact (run_counts cfg num_failures (start_is "failure") evs st st'
             (handle_num_failures cfg) H).
  - exact (run_counts cfg num_skips (start_is "skipped") evs st st' (handle_num_skips cfg) H).
Qed.

Lemma status_counters_witness :
  run cfg_empty
    [StartElement "testcase" [("classname", "m"); ("name", "t")];
     StartElement "failure" []; EndElement "failure";
     StartElement "skipped" []; EndElement "skipped";
     StartElement "error" []; EndElement "error"; EndElement "testcase"] init_state
  = (inr tt, snd (run cfg_empty
    [StartElement "testcase" [("classname", "m"); ("name", "t")];
     StartElement "failure" []; EndElement "failure";
     StartElement "skipped" []; EndElement "skipped";
     StartElement "error" []; EndElement "error"; EndElement "testcase"] init_state)) /\
  num_errors (snd (run cfg_empty
    [StartElement "testcase" [("classname", "m"); ("name", "t")];
     StartElement "failure" []; EndElement "failure";
     StartElement "skipped" []; EndElement "skipped";
     StartElement "error" []; EndElement "error"; EndElement "testcase"] init_state)) = 1%Z.
Proof.
  assert (H : run cfg_empty
    [StartElement "testcase" [("classname", "m"); ("name", "t")];
     StartElement "failure" []; EndElement "failure";
     StartElement "skipped" []; EndElement "skipped";
     StartElement "error" []; EndElement "error"; EndElement "testcase"] init_state
  = (inr tt, snd (run cfg_empty
    [StartElement "testcase" [("classname", "m"); ("name", "t")];
     StartElement "failure" []; EndElement "failure";
     StartElement "skipped" []; EndElement "skipped";
     StartElement "error" []; EndElement "error"; EndElement "testcase"] init_state)))
    by reflexivity.
  split; [exact H|].
  exact (proj1 (status_counters _ _ _ _ H)).
Defined.

(** The nesting level moves by the number of [<testcase>] starts minus the
    number of [</testcase>] ends handled. *)
Theorem level_balance cfg evs st st' :
  run cfg evs st = (inr tt, st') ->
  testcase_level st' = (testcase_level st + Z.of_nat (count_start_events "testcase" evs)
                        - Z.of_nat (count_end_events "testcase" evs))%Z.
Proof.
  intros H. unfold count_start_events, count_end_events.
  pose proof (run_additive cfg (fun s => testcase_level s)
             (fun e => (if start_is "testcase" e then 1 else 0)
                       - (if end_is "testcase" e then 1 else 0))%Z evs st st'
             ltac:(intros e s s' He; pose proof (handle_level cfg e s s' He) as Hh;
                   simpl in *; lia) H) as Hr.
  cbv beta in Hr. rewrite Hr.
  rewrite <- !sum_indicator. clear H Hr. induction evs as [|e evs IH]; simpl; lia.
Qed.

Lemma level_balance_witness :
  run cfg_empty events_two_testcases init_state
  = (inr tt, snd (run cfg_empty events_two_testcases init_state)) /\
  testcase_level (snd (run cfg_empty events_two_testcases init_state)) = 0%Z.
Proof.
  assert (H : run cfg_empty events_two_testcases init_state
              = (inr tt, snd (run cfg_empty events_two_testcases init_state)))
    by reflexivity.
  split; [exact H|].
  rewrite (level_balance _ _ _ _ H). reflexivity.
Defined.

(** Every [</testcase>] handled files exactly one identity: the passing
    list and the non-passing lists together grow by the number of
    [</testcase>] ends. *)
Theorem filed_counts_ends cfg evs st st' :
  run cfg evs st = (inr tt, st') ->
  filed_count st' = (filed_count st + count_end_events "testcase" evs)%nat.
Proof.
  intros H. unfold count_end_events.
  pose proof (run_counts cfg (fun s => Z.of_nat (filed_count s)) (end_is "testcase")
                evs st st'
                ltac:(intros e s s' He; cbv beta; rewrite (handle_filed cfg e s s' He);
                      destruct (end_is "testcase" e); lia) H) as Hc.
  lia.
Qed.

Lemma filed_counts_ends_witness :
  run cfg_empty events_two_testcases init_state
  = (inr tt, snd (run cfg_empty events_two_testcases init_state)) /\
  filed_count (snd (run cfg_empty events_two_testcases init_state)) = 2%nat.
Proof.
  assert (H : run cfg_empty events_two_testcases init_state
              = (inr tt, snd (run cfg_empty events_two_testcases init_state)))
    by reflexivity.
  split; [exact H|].
  rewrite (filed_counts_ends _ _ _ _ H). reflexivity.
Defined.

(** A run that ends at the nesting level it started from has filed exactly
    as many identities as it counted testcases. *)
Theorem balanced_run_files_every_testcase cfg evs st st' :
  run cfg evs st = (inr tt, st') ->
  testcase_level st' = testcase_level st ->
  (Z.of_nat (filed_count st') - Z.of_nat (filed_count st)
   = num_testcases st' - num_testcases st)%Z.
Proof.
  intros H Hl.
  pose proof (run_additive cfg (fun s => testcase_level s)
             (fun e => (if start_is "testcase" e then 1 else 0)
                       - (if end_is "testcase" e then 1 else 0))%Z evs st st'
             ltac:(intros e s s' He; pose proof (handle_level cfg e s s' He) as Hh;
                   simpl in *; lia) H) as Hlv.
  pose proof (run_counts cfg (fun s => num_testcases s) (start_is "testcase") evs st st'
                ltac:(intros e s s' He; pose proof (handle_num cfg e s s' He) as Hh;
                      simpl in *; destruct e; exact Hh) H) as Hn.
  pose proof (run_counts cfg (fun s => Z.of_nat (filed_count s)) (end_is "testcase")
                evs st st'
                ltac:(intros e s s' He; cbv beta; rewrite (handle_filed cfg e s s' He);
                      destruct (end_is "testcase" e); lia) H) as Hf.
  simpl in Hf. rewrite Hf, Hn.
  assert (Hb : fold_right Z.add 0%Z
                 (map (fun e => (if start_is "testcase" e then 1 else 0)
                                - (if end_is "testcase" e then 1 else 0))%Z evs)
               = (Z.of_nat (length (filter (start_is "testcase") evs))
                  - Z.of_nat (length (filter (end_is "testcase") evs)))%Z).
  { rewrite <- !sum_indicator. clear. induction evs as [|e evs IH]; simpl; lia. }
  cbv beta in Hlv. lia.
Qed.

Lemma balanced_run_files_every_testcase_witness :
  run cfg_empty events_two_testcases init_state
  = (inr tt, snd (run cfg_empty events_two_testcases init_state)) /\
  testcase_level (snd (run cfg_empty events_two_testcases init_state))
  = testcase_level init_state /\
  (Z.of_nat (filed_count (snd (run cfg_empty events_two_testcases init_state)))
   - Z.of_nat (filed_count init_state)
   = num_testcases (snd (run cfg_empty events_two_testcases init_state))
     - num_testcases init_state)%Z.
Proof.
  assert (H : run cfg_empty events_two_testcases init_state
              = (inr tt, snd (run cfg_empty events_two_testcases init_state)))
    by reflexivity.
  assert (Hl : testcase_level (snd (run cfg_empty events_two_testcases init_state))
               = testcase_level init_state) by reflexivity.
  split; [exact H|]. split; [exact Hl|].
  exact (balanced_run_files_every_testcase _ _ _ _ H Hl).
Defined.

(** ** Error paths of the [_start_*] methods *)

(** A [<testcase>] with a non-empty [name] but no [classname] raises
    [KeyError('classname')] after the level and the counter were
    incremented; the identity of the previous testcase is left in place. *)
Theorem testcase_without_classname_aborts cfg st a n rest :
  testcase_level st = 0%Z ->
  attrs_get a "name" = Some n -> str_truthy n = true ->
  attrs_get a "classname" = None ->
  exists st',
    run cfg (StartElement "testcase" a :: rest) st = (inl (KeyError "classname"), st') /\
    testcase_level st' = 1%Z /\ num_testcases st' = (num_testcases st + 1)%Z /\
    cur_test st' = cur_test st.
Proof.
  intros Hl Hn Ht Hc. eexists. split; [apply run_cons_err|].
  - unfold handle, startElement. rewrite bind_modify. cbv zeta.
    change (start_method cfg (py_replace "-" "_" ("_start_" ++ "testcase")))
      with (Some (start_testcase cfg)). cbv beta iota.
    unfold start_testcase. rewrite bind_modify, bind_gets. simpl. rewrite Hl. simpl.
    rewrite bind_ret, bind_modify, Hn, Ht. unfold attrs_item. rewrite Hc.
    reflexivity.
  - simpl. repeat split.
Qed.

Lemma testcase_without_classname_aborts_witness :
  testcase_level init_state = 0%Z /\
  attrs_get [("name", "test_f")] "name" = Some "test_f" /\
  str_truthy "test_f" = true /\ attrs_get [("name", "test_f")] "classname" = None /\
  exists st',
    run cfg_empty [StartElement "testcase" [("name", "test_f")]; EndElement "testcase"]
      init_state = (inl (KeyError "classname"), st') /\
    testcase_level st' = 1%Z /\ num_testcases st' = (num_testcases init_state + 1)%Z /\
    cur_test st' = cur_test init_state.
Proof.
  do 4 (split; [reflexivity|]).
  apply testcase_without_classname_aborts with (n := "test_f"); reflexivity.
Defined.

(** [<system-out>] and [<system-err>] outside a testcase (at any nesting
    level but 1) fail the assertion of their method and abort the parse. *)
Theorem system_output_outside_testcase_aborts cfg st n a rest :
  n = "system-out" \/ n = "system-err" ->
  testcase_level st <> 1%Z ->
  exists st', run cfg (StartElement n a :: rest) st = (inl AssertionError, st').
Proof.
  intros Hn Hl. eexists. apply run_cons_err.
  apply Z.eqb_neq in Hl.
  destruct Hn as [->| ->]; unfold handle, startElement; rewrite bind_modify; simpl;
    cbv [start_system_out start_system_err]; rewrite bind_gets; simpl;
    rewrite Hl; reflexivity.
Qed.

Lemma system_output_outside_testcase_aborts_witness :
  ("system-out" = "system-out" \/ "system-out" = "system-err") /\
  testcase_level init_state <> 1%Z /\
  exists st', run cfg_empty [StartElement "system-out" []; Characters "x"] init_state
              = (inl AssertionError, st').
Proof.
  split; [left; reflexivity|]. split; [discriminate|].
  apply system_output_outside_testcase_aborts; [left; reflexivity | discriminate].
Defined.

(** A [</testcase>] with no open testcase raises nothing: it files the
    current identity as passing and takes the level to -1, so that the
    next [<testcase>] fails its assertion and aborts the parse. *)
Theorem stray_end_testcase cfg st a rest :
  testcase_level st = 0%Z -> cur_status st = None ->
  exists st1 st2,
    handle cfg (EndElement "testcase") st = (inr tt, st1) /\
    testcase_level st1 = (-1)%Z /\
    passing_tests st1 = app (passing_tests st) [cur_test st] /\
    run cfg (StartElement "testcase" a :: rest) st1 = (inl AssertionError, st2).
Proof.
  intros Hl Hs.
  destruct (end_testcase_step cfg st) as (st1 & E & L & _ & _ & _ & B).
  rewrite Hs in B. destruct B as [B _].
  exists st1. eexists. split; [exact E|]. split; [rewrite L, Hl; reflexivity|].
  split; [exact B|].
  apply run_cons_err.
  unfold handle, startElement. rewrite bind_modify. cbv zeta.
  change (start_method cfg (py_replace "-" "_" ("_start_" ++ "testcase")))
    with (Some (start_testcase cfg)). cbv beta iota.
  unfold start_testcase. rewrite bind_modify, bind_gets. simpl. rewrite L, Hl.
  reflexivity.
Qed.

Lemma stray_end_testcase_witness :
  testcase_level init_state = 0%Z /\ cur_status init_state = None /\
  exists st1 st2,
    handle cfg_empty (EndElement "testcase") init_state = (inr tt, st1) /\
    testcase_level st1 = (-1)%Z /\
    passing_tests st1 = app (passing_tests init_state) [cur_test init_state] /\
    run cfg_empty [StartElement "testcase" [("classname", "m"); ("name", "t")]] st1
      = (inl AssertionError, st2).
Proof.
  split; [reflexivity|]. split; [reflexivity|].
  apply stray_end_testcase; reflexivity.
Defined.

(** ** Tags without a method *)

Lemma start_prefix_eq r t :
  String.eqb ("_start_" ++ r) ("_start_" ++ t) = true -> r = t.
Proof.
  intros E. apply String.eqb_eq in E. simpl in E.
  repeat match type of E with String _ _ = String _ _ => injection E as E end.
  exact E.
Qed.

Ltac not_handled E t Hn :=
  apply (start_prefix_eq _ t) in E; exfalso; apply Hn; rewrite E; simpl; tauto.

(** A start tag whose name, with [-] read as [_], is none of the eight
    handled ones is added to the set of unhandled tags; nothing else but
    the current tag changes. *)
Theorem unknown_tag_recorded cfg st n a :
  ~ In (py_replace "-" "_" n)
       ["testsuites"; "testsuite"; "testcase"; "error"; "failure"; "skipped";
        "system_out"; "system_err"] ->
  handle cfg (StartElement n a) st
  = (inr tt, set_unhandled_tags (set_add (unhandled_tags st) n) (set_cur_tag n st)).
Proof.
  intros Hn. unfold handle, startElement. rewrite bind_modify. cbv zeta.
  rewrite start_method_name. unfold start_method.
  destruct (String.eqb _ "_start_testsuites") eqn:E1; [not_handled E1 "testsuites" Hn|].
  destruct (String.eqb _ "_start_testsuite") eqn:E2; [not_handled E2 "testsuite" Hn|].
  destruct (String.eqb _ "_start_testcase") eqn:E3; [not_handled E3 "testcase" Hn|].
  destruct (String.eqb _ "_start_error") eqn:E4; [not_handled E4 "error" Hn|].
  destruct (String.eqb _ "_start_failure") eqn:E5; [not_handled E5 "failure" Hn|].
  destruct (String.eqb _ "_start_skipped") eqn:E6; [not_handled E6 "skipped" Hn|].
  destruct (String.eqb _ "_start_system_out") eqn:E7; [not_handled E7 "system_out" Hn|].
  destruct (String.eqb _ "_start_system_err") eqn:E8; [not_handled E8 "system_err" Hn|].
  reflexivity.
Qed.

Lemma unknown_tag_recorded_witness :
  ~ In (py_replace "-" "_" "properties")
       ["testsuites"; "testsuite"; "testcase"; "error"; "failure"; "skipped";
        "system_out"; "system_err"] /\
  handle cfg_empty (StartElement "properties" []) level_one_state
  = (inr tt, set_unhandled_tags (set_add (unhandled_tags level_one_state) "properties")
                                (set_cur_tag "properties" level_one_state)).
Proof.
  assert (H : ~ In (py_replace "-" "_" "properties")
       ["testsuites"; "testsuite"; "testcase"; "error"; "failure"; "skipped";
        "system_out"; "system_err"]) by (simpl; intuition discriminate).
  split; [exact H|]. exact (unknown_tag_recorded cfg_empty level_one_state "properties" [] H).
Defined.

(** The methods [getattr] can return for a [_start_*] name. *)
Lemma start_method_cases cfg name m :
  start_method cfg name = Some m ->
  m = start_testsuites \/ m = start_testsuite \/ m = start_testcase cfg \/
  m = start_error \/ m = start_failure \/ m = start_skipped \/
  m = start_system_out \/ m = start_system_err.
Proof.
  unfold start_method.
  repeat match goal with |- context [if ?b then _ else _] => destruct b end;
    intros H; first [discriminate H | injection H as <-; tauto].
Qed.

Lemma handle_unhandled cfg e st st' :
  handle cfg e st = (inr tt, st') ->
  unhandled_tags st' =
  match e with
  | StartElement n _ =>
      match start_method cfg (py_replace "-" "_" ("_start_" ++ n)) with
      | Some _ => unhandled_tags st
      | None => set_add (unhandled_tags st) n
      end
  | _ => unhandled_tags st
  end.
Proof.
  intros H. destruct e as [n a|n|c].
  - unfold handle, startElement in H. rewrite bind_modify in H. cbv zeta in H.
    destruct (start_method cfg _) as [m|] eqn:Em.
    + assert (Hp : preserves unhandled_tags (m a)).
      { apply start_method_cases in Em.
        repeat destruct Em as [->|Em];
          try subst m;
          cbv [start_testsuites start_testsuite start_testcase start_error start_failure
               start_skipped start_system_out start_system_err];
          solve_preserves. }
      pose proof (preserves_result _ _ _ _ _ Hp H) as Hr. simpl in Hr. exact Hr.
    + injection H as <-. reflexivity.
  - pose proof (preserves_result _ _ _ _ _
      (handle_preserves unhandled_tags cfg (EndElement n) ltac:(preserves_side)) H)
      as Hp. simpl in Hp. exact Hp.
  - pose proof (preserves_result _ _ _ _ _
      (handle_preserves unhandled_tags cfg (Characters c) ltac:(preserves_side)) H)
      as Hp. simpl in Hp. exact Hp.
Qed.

Lemma NoDup_set_add s x : NoDup s -> NoDup (set_add s x).
Proof.
  unfold set_add. intros H. destruct (existsb (String.eqb x) s) eqn:E; [exact H|].
  apply NoDup_app; [exact H | repeat constructor; simpl; tauto |].
  intros y Hy [<-|[]].
  assert (Ex : existsb (String.eqb x) s = true)
    by (apply existsb_exists; exists x; split; [exact Hy | apply String.eqb_refl]).
  congruence.
Qed.

Lemma In_set_add s x y : In y (set_add s x) <-> In y s \/ x = y.
Proof.
  unfold set_add. destruct (existsb (String.eqb x) s) eqn:E.
  - apply existsb_exists in E as (z & Hz & Ez). apply String.eqb_eq in Ez. subst z.
    split; [tauto|]. intros [H| <-]; assumption.
  - rewrite in_app_iff. simpl. tauto.
Qed.

(** ** The set of unhandled tags *)

(** [unhandled_tags] stays a set (no duplicates), and after a run it holds
    exactly the tags it held before and the names of the start events of
    the run for which [getattr] found no method. *)
Theorem unhandled_tags_set cfg evs st st' :
  run cfg evs st = (inr tt, st') -> NoDup (unhandled_tags st) ->
  NoDup (unhandled_tags st') /\
  (forall t, In t (unhandled_tags st') <->
             In t (unhandled_tags st) \/
             exists a, In (StartElement t a) evs /\
                       start_method cfg (py_replace "-" "_" ("_start_" ++ t)) = None).
Proof.
  revert st. induction evs as [|e evs IH]; intros st H Hd.
  - simpl in H. injection H as <-. split; [exact Hd|]. intros t. simpl. firstorder.
  - simpl in H. destruct (handle cfg e st) as [[ex|[]] st1] eqn:E.
    + rewrite (bind_err _ _ _ _ _ E) in H. discriminate H.
    + rewrite (bind_ok _ _ _ _ _ E) in H.
      pose proof (handle_unhandled cfg e st st1 E) as U.
      assert (Hd1 : NoDup (unhandled_tags st1)).
      { rewrite U. destruct e as [n a| |]; [|exact Hd|exact Hd].
        destruct (start_method _ _); [exact Hd | apply NoDup_set_add; exact Hd]. }
      destruct (IH st1 H Hd1) as [Hd2 Hin]. split; [exact Hd2|].
      intros t. rewrite Hin, U. clear Hin IH H.
      destruct e as [n a|n|c].
      * destruct (start_method cfg (py_replace "-" "_" ("_start_" ++ n))) eqn:Em.
        -- split.
           ++ intros [Ht|(b & Hb & Hm)]; [tauto|]. right. exists b. simpl. tauto.
           ++ intros [Ht|(b & [Hb|Hb] & Hm)]; [tauto| |right; exists b; tauto].
              injection Hb as -> ->. rewrite Em in Hm. discriminate.
        -- rewrite In_set_add. split.
           ++ intros [[Ht| <-]|(b & Hb & Hm)].
              ** tauto.
              ** right. exists a. simpl. tauto.
              ** right. exists b. simpl. tauto.
           ++ intros [Ht|(b & [Hb|Hb] & Hm)]; [tauto| |right; exists b; tauto].
              injection Hb as -> ->. left. right. reflexivity.
      * split.
        -- intros [Ht|(b & Hb & Hm)]; [tauto|]. right. exists b. simpl. tauto.
        -- intros [Ht|(b & [Hb|Hb] & Hm)]; [tauto|discriminate|right; exists b; tauto].
      * split.
        -- intros [Ht|(b & Hb & Hm)]; [tauto|]. right. exists b. simpl. tauto.
        -- intros [Ht|(b & [Hb|Hb] & Hm)]; [tauto|discriminate|right; exists b; tauto].
Qed.

Lemma unhandled_tags_set_witness :
  run cfg_empty [StartElement "properties" []; StartElement "property" [];
                 EndElement "property"; StartElement "properties" []] init_state
  = (inr tt, snd (run cfg_empty [StartElement "properties" []; StartElement "property" [];
                 EndElement "property"; StartElement "properties" []] init_state)) /\
  NoDup (unhandled_tags init_state) /\
  NoDup (unhandled_tags (snd (run cfg_empty [StartElement "properties" [];
                 StartElement "property" []; EndElement "property";
                 StartElement "properties" []] init_state))).
Proof.
  assert (H : run cfg_empty [StartElement "properties" []; StartElement "property" [];
                 EndElement "property"; StartElement "properties" []] init_state
  = (inr tt, snd (run cfg_empty [StartElement "properties" []; StartElement "property" [];
                 EndElement "property"; StartElement "properties" []] init_state)))
    by reflexivity.
  assert (Hd : NoDup (unhandled_tags init_state)) by constructor.
  split; [exact H|]. split; [exact Hd|].
  exact (proj1 (unhandled_tags_set _ _ _ _ H Hd)).
Defined.

(** ** The [<testsuite>] header read in full *)

(** With integer [errors], [failures], [tests] and a numeric [time], and a
    skip count from [skips] or, when [skips] is absent, from [skipped], the
    header is stored and the parse goes on; a warning naming the suite is
    written to stderr unless its name is [pytest]. *)
Theorem testsuite_header_read cfg st a es fs ts tms ss ne nf nt tq nk :
  attrs_get a "errors" = Some es -> py_int es = Some ne ->
  attrs_get a "failures" = Some fs -> py_int fs = Some nf ->
  attrs_get a "tests" = Some ts -> py_int ts = Some nt ->
  attrs_get a "time" = Some tms -> py_float tms = Some tq ->
  attrs_get a "skips" = Some ss \/
    (attrs_get a "skips" = None /\ attrs_get a "skipped" = Some ss) ->
  py_int ss = Some nk ->
  exists st',
    handle cfg (StartElement "testsuite" a) st = (inr tt, st') /\
    expected_num_errors st' = Some ne /\ expected_num_failures st' = Some nf /\
    expected_num_tests st' = Some nt /\ total_time_sec st' = Some tq /\
    expected_num_skips st' = Some nk /\
    (attrs_get a "name" = Some "pytest" -> stderr st' = stderr st) /\
    (attrs_get a "name" <> Some "pytest" ->
     stderr st' = app (stderr st) [WarnSuiteName (attrs_get a "name")]).
Proof.
  intros He Hne Hf Hnf Ht Hnt Htm Htq Hs Hnk.
  unfold handle, startElement.
  change (start_method cfg (py_replace "-" "_" ("_start_" ++ "testsuite")))
    with (Some start_testsuite).
  cbv [start_testsuite bind modify gets ret raise lift_opt attrs_item py_int_m py_float_m].
  assert (Hn : opt_str_eqb (attrs_get a "name") (Some "pytest") = true <->
               attrs_get a "name" = Some "pytest").
  { destruct (attrs_get a "name") as [nm|]; simpl; [|split; discriminate].
    rewrite String.eqb_eq. split; [intros ->|intros H; injection H as ->]; reflexivity. }
  destruct Hs as [Hs|[Hs Hsd]];
  destruct (opt_str_eqb (attrs_get a "name") (Some "pytest")) eqn:Eq;
    repeat match goal with
           | H : ?x = _ |- context [?x] => rewrite H; cbv beta iota
           end;
    (eexists; split; [reflexivity | simpl; repeat split]);
    intros Hm;
    first [ reflexivity
          | exfalso; first [apply Hm, Hn; reflexivity | apply Hn in Hm; discriminate Hm]].
Qed.

Lemma testsuite_header_read_witness :
  let a := [("name", "tests"); ("errors", "0"); ("failures", "1"); ("skips", "3");
            ("skipped", "2"); ("tests", "5"); ("time", "1.25")] in
  exists st',
    handle cfg_empty (StartElement "testsuite" a) init_state = (inr tt, st') /\
    expected_num_errors st' = Some 0%Z /\ expected_num_failures st' = Some 1%Z /\
    expected_num_tests st' = Some 5%Z /\ total_time_sec st' = Some (125 # 100)%Q /\
    expected_num_skips st' = Some 3%Z /\
    (attrs_get a "name" = Some "pytest" -> stderr st' = stderr init_state) /\
    (attrs_get a "name" <> Some "pytest" ->
     stderr st' = app (stderr init_state) [WarnSuiteName (attrs_get a "name")]).
Proof.
  intros a.
  apply (testsuite_header_read cfg_empty init_state a "0" "1" "5" "1.25" "3");
    try reflexivity.
  left. reflexivity.
Defined.

(** ** Text chunks *)

Lemma opt_str_eqb_eq x y : opt_str_eqb x y = true <-> x = y.
Proof.
  destruct x as [a|], y as [b|]; simpl; try (split; congruence).
  rewrite String.eqb_eq. split; congruence.
Qed.

Lemma characters_step cfg c st :
  handle cfg (Characters c) st =
  (inr tt,
   if negb (testcase_level st =? 1)%Z || String.eqb (cur_tag st) "testcase"
      || negb (str_truthy c)
   then st
   else if opt_str_eqb (h_show cfg) (cur_test st)
   then set_show_text (dd_append (show_text st) (cur_tag st) c) st
   else st).
Proof.
  unfold handle, characters. cbv [bind gets modify ret].
  destruct (_ || _ || _); [reflexivity|].
  destruct (opt_str_eqb _ _); reflexivity.
Qed.

Lemma run_characters_cons cfg c cs st :
  run cfg (map Characters (c :: cs)) st
  = run cfg (map Characters cs) (snd (handle cfg (Characters c) st)).
Proof.
  change (run cfg (map Characters (c :: cs)) st)
    with (bind (handle cfg (Characters c)) (fun _ => run cfg (map Characters cs)) st).
  rewrite (bind_ok _ _ _ _ _ (characters_step cfg c st)).
  rewrite characters_step. reflexivity.
Qed.

(** Inside the testcase given to [--show], outside the [<testcase>] tag
    itself, the non-empty text chunks are appended in order to the list of
    the current tag in [show_text]; nothing else in the state changes. *)
Theorem text_chunks_accumulate cfg st cs :
  testcase_level st = 1%Z -> cur_tag st <> "testcase" -> h_show cfg = cur_test st ->
  exists st',
    run cfg (map Characters cs) st = (inr tt, st') /\
    st' = set_show_text (show_text st') st /\
    (forall k, dd_list (show_text st') k =
               app (dd_list (show_text st) k)
                   (if String.eqb k (cur_tag st) then filter str_truthy cs else [])).
Proof.
  intros Hl Ht Hs. revert st Hl Ht Hs.
  induction cs as [|c cs IH]; intros st Hl Ht Hs.
  - exists st. split; [reflexivity|]. split; [reflexivity|].
    intros k. destruct (String.eqb k _); simpl; rewrite app_nil_r; reflexivity.
  - rewrite run_characters_cons, characters_step. simpl snd.
    assert (Hs' : opt_str_eqb (h_show cfg) (cur_test st) = true)
      by (apply opt_str_eqb_eq; exact Hs).
    pose proof Ht as Ht'. apply String.eqb_neq in Ht'.
    rewrite Hl, Ht'. simpl (negb (1 =? 1)%Z).
    destruct (str_truthy c) eqn:Ec; simpl orb; cbv iota.
    + rewrite Hs'.
      destruct (IH (set_show_text (dd_append (show_text st) (cur_tag st) c) st)
                   Hl Ht Hs) as (st' & E & Est & Hk).
      exists st'. split; [exact E|]. split; [rewrite Est; reflexivity|].
      intros k. rewrite Hk. simpl. rewrite dd_list_append, Ec.
      destruct (String.eqb k (cur_tag st)); simpl;
        [rewrite <- app_assoc; reflexivity | rewrite !app_nil_r; reflexivity].
    + destruct (IH st Hl Ht Hs) as (st' & E & Est & Hk).
      exists st'. split; [exact E|]. split; [exact Est|].
      intros k. rewrite Hk. simpl. rewrite Ec. reflexivity.
Qed.

Lemma text_chunks_accumulate_witness :
  let st := set_cur_tag "system-out" (set_testcase_level 1 init_state) in
  testcase_level st = 1%Z /\ cur_tag st <> "testcase" /\ h_show cfg_empty = cur_test st /\
  exists st',
    run cfg_empty (map Characters ["line 1"; ""; "line 2"]) st = (inr tt, st') /\
    st' = set_show_text (show_text st') st /\
    (forall k, dd_list (show_text st') k =
               app (dd_list (show_text st) k)
                   (if String.eqb k (cur_tag st) then filter str_truthy ["line 1"; ""; "line 2"]
                    else [])).
Proof.
  intros st.
  split; [reflexivity|]. split; [discriminate|]. split; [reflexivity|].
  apply text_chunks_accumulate; [reflexivity | discriminate | reflexivity].
Defined.

(** Text outside a testcase, directly inside [<testcase>], or inside a
    testcase other than the one given to [--show] changes nothing. *)
Theorem text_elsewhere_ignored cfg st cs :
  testcase_level st <> 1%Z \/ cur_tag st = "testcase" \/ h_show cfg <> cur_test st ->
  run cfg (map Characters cs) st = (inr tt, st).
Proof.
  intros H. induction cs as [|c cs IH]; [reflexivity|].
  rewrite run_characters_cons, characters_step. simpl snd.
  destruct (negb (testcase_level st =? 1)%Z || String.eqb (cur_tag st) "testcase"
            || negb (str_truthy c)) eqn:Eb; [exact IH|].
  destruct (opt_str_eqb (h_show cfg) (cur_test st)) eqn:Es; [|exact IH].
  exfalso. apply opt_str_eqb_eq in Es.
  apply orb_false_iff in Eb as [Eb _]. apply orb_false_iff in Eb as [E1 E2].
  apply negb_false_iff, Z.eqb_eq in E1. apply String.eqb_neq in E2.
  destruct H as [H|[H|H]]; contradiction.
Qed.

Lemma text_elsewhere_ignored_witness :
  (testcase_level init_state <> 1%Z \/ cur_tag init_state = "testcase" \/
   h_show cfg_empty <> cur_test init_state) /\
  run cfg_empty (map Characters ["stray"; "text"]) init_state = (inr tt, init_state).
Proof.
  assert (H : testcase_level init_state <> 1%Z \/ cur_tag init_state = "testcase" \/
              h_show cfg_empty <> cur_test init_state) by (left; discriminate).
  split; [exact H|]. exact (text_elsewhere_ignored cfg_empty init_state _ H).
Defined.

(** ** The attributes of the testcase given to [--show] *)

Lemma attrs_get_none a k : ~ In k (attrs_keys a) -> attrs_get a k = None.
Proof.
  induction a as [|[k' v'] a IH]; intros Hk; [reflexivity|].
  unfold attrs_get. simpl. simpl in Hk.
  destruct (String.eqb_spec k' k) as [->|]; [tauto|].
  apply IH. tauto.
Qed.

Lemma snapshot_get a l st :
  (forall k, In k l -> In k (attrs_keys a)) ->
  exists d,
    py_for l (fun attr_name =>
      v <- attrs_item a attr_name ;;
      modify (fun st => set_show_attrs (dict_set (show_attrs st) attr_name v) st)) st
    = (inr tt, set_show_attrs d st) /\
    forall k, dict_get d k = if existsb (String.eqb k) l then attrs_get a k
                             else dict_get (show_attrs st) k.
Proof.
  revert st. induction l as [|k0 l IH]; intros st Hl; simpl.
  - exists (show_attrs st). split; reflexivity.
  - destruct (attrs_get_key a k0 (Hl k0 (or_introl eq_refl))) as [v Hv].
    rewrite bind_assoc, (bind_attrs_item _ _ _ _ _ Hv), bind_modify.
    destruct (IH (set_show_attrs (dict_set (show_attrs st) k0 v) st)) as (d & Hd & Hg);
      [intros; apply Hl; right; assumption|].
    exists d. rewrite Hd. split; [reflexivity|].
    intros k. rewrite Hg. simpl. rewrite dict_get_set.
    destruct (String.eqb_spec k k0) as [->|Hne].
    + rewrite String.eqb_refl. simpl. destruct (existsb _ l); congruence.
    + rewrite (proj2 (String.eqb_neq k0 k) (not_eq_sym Hne)). simpl. reflexivity.
Qed.

Lemma existsb_eqb_In k l : existsb (String.eqb k) l = true <-> In k l.
Proof.
  rewrite existsb_exists. split.
  - intros (x & Hx & E). apply String.eqb_eq in E. subst. exact Hx.
  - intros H. exists k. split; [exact H | apply String.eqb_refl].
Qed.

(** [<testcase>] at level 0, run symbolically up to the snapshot. *)
Lemma start_testcase_run cfg a st :
  testcase_level st = 0%Z ->
  (forall n, attrs_get a "name" = Some n -> str_truthy n = true ->
             attrs_get a "classname" <> None) ->
  exists st0,
    show_attrs st0 = show_attrs st /\
    handle cfg (StartElement "testcase" a) st =
    if opt_str_eqb (h_show cfg) (testcase_identity cfg a) then
      py_for (sort_strings (attrs_keys a)) (fun attr_name =>
        v <- attrs_item a attr_name ;;
        modify (fun st => set_show_attrs (dict_set (show_attrs st) attr_name v) st)) st0
    else (inr tt, st0).
Proof.
  intros Hl Hc.
  unfold handle, startElement. rewrite bind_modify. cbv zeta.
  change (start_method cfg (py_replace "-" "_" ("_start_" ++ "testcase")))
    with (Some (start_testcase cfg)). cbv beta iota.
  unfold start_testcase. rewrite bind_modify, bind_gets. simpl.
  rewrite Hl. simpl. rewrite bind_ret, bind_modify.
  unfold testcase_identity.
  destruct (attrs_get a "name") as [n|] eqn:En;
    [destruct (str_truthy n) eqn:Et|].
  - destruct (attrs_get a "classname") as [c|] eqn:Ec;
      [|exfalso; exact (Hc n eq_refl Et eq_refl)].
    rewrite bind_assoc, (bind_attrs_item _ _ _ _ _ Ec), bind_modify.
    rewrite bind_modify, bind_gets. simpl.
    destruct (opt_str_eqb _ _); (eexists; split; [|reflexivity]; reflexivity).
  - rewrite !bind_modify, bind_gets. simpl.
    destruct (opt_str_eqb _ _); (eexists; split; [|reflexivity]; reflexivity).
  - rewrite !bind_modify, bind_gets. simpl.
    destruct (opt_str_eqb _ _); (eexists; split; [|reflexivity]; reflexivity).
Qed.

(** When the identity of a testcase is the one given to [--show] (also
    when both are [None]: no [--show] and a testcase without [name]), every
    attribute of the testcase is copied into [show_attrs], which otherwise
    keeps its entries. *)
Theorem shown_testcase_attrs cfg st a st1 :
  handle cfg (StartElement "testcase" a) st = (inr tt, st1) ->
  h_show cfg = testcase_identity cfg a ->
  forall k, dict_get (show_attrs st1) k =
            match attrs_get a k with
            | Some v => Some v
            | None => dict_get (show_attrs st) k
            end.
Proof.
  intros H Hs k.
  destruct (start_testcase_inv cfg a st st1 H) as [Hl Hc].
  destruct (start_testcase_run cfg a st Hl Hc) as (st0 & S0 & E).
  rewrite E, (proj2 (opt_str_eqb_eq _ _) Hs) in H.
  destruct (snapshot_get a (sort_strings (attrs_keys a)) st0) as (d & Hd & Hg);
    [intros k' Hk'; rewrite In_sort_strings in Hk'; exact Hk'|].
  rewrite Hd in H. injection H as <-. simpl. rewrite Hg, S0.
  destruct (existsb (String.eqb k) (sort_strings (attrs_keys a))) eqn:Ek.
  - apply existsb_eqb_In in Ek. rewrite In_sort_strings in Ek.
    destruct (attrs_get_key a k Ek) as [v ->]. reflexivity.
  - assert (Hn : ~ In k (attrs_keys a)).
    { intros Hin. rewrite <- In_sort_strings, <- existsb_eqb_In in Hin. congruence. }
    rewrite (attrs_get_none a k Hn). reflexivity.
Qed.

Lemma shown_testcase_attrs_witness :
  let a := [("classname", "tests.test_mod"); ("time", "0.001")] in
  handle cfg_empty (StartElement "testcase" a) init_state
  = (inr tt, snd (handle cfg_empty (StartElement "testcase" a) init_state)) /\
  h_show cfg_empty = testcase_identity cfg_empty a /\
  dict_get (show_attrs (snd (handle cfg_empty (StartElement "testcase" a) init_state))) "time"
  = Some "0.001".
Proof.
  intros a.
  assert (H : handle cfg_empty (StartElement "testcase" a) init_state
              = (inr tt, snd (handle cfg_empty (StartElement "testcase" a) init_state)))
    by reflexivity.
  assert (Hs : h_show cfg_empty = testcase_identity cfg_empty a) by reflexivity.
  split; [exact H|]. split; [exact Hs|].
  exact (shown_testcase_attrs cfg_empty init_state a _ H Hs "time").
Defined.

(** ** How [report] ends *)

(** In summary mode, a report without a [<testsuite>] header prints its
    first two lines and then raises [TypeError] (on [None + None]); nothing
    after them is printed. *)
Theorem report_without_header cfg st :
  opt_str_truthy (h_show cfg) = false ->
  expected_num_errors st = None \/ expected_num_failures st = None ->
  report cfg st
  = ([[PStr "Report on JUnit XML file "; PStr (h_junitxml cfg); PStr ":"];
      [PStr "Stats from the <testsuites> tag:"]], Some TypeError).
Proof.
  intros Hs He. unfold report. cbv zeta. rewrite Hs.
  destruct He as [He|He]; rewrite He;
    [|destruct (expected_num_errors st)]; reflexivity.
Qed.

Lemma report_without_header_witness :
  opt_str_truthy (h_show cfg_empty) = false /\
  (expected_num_errors init_state = None \/ expected_num_failures init_state = None) /\
  report cfg_empty init_state
  = ([[PStr "Report on JUnit XML file "; PStr (h_junitxml cfg_empty); PStr ":"];
      [PStr "Stats from the <testsuites> tag:"]], Some TypeError).
Proof.
  split; [reflexivity|]. split; [left; reflexivity|].
  apply report_without_header; [reflexivity | left; reflexivity].
Defined.

Lemma py_sorted_tests_ok l :
  match py_sorted_tests l with Some _ => true | None => false end = true
  <-> ((length l < 2)%nat \/ ~ In None l).
Proof.
  unfold py_sorted_tests.
  destruct (Nat.leb_spec 2 (length l)) as [Hlen|Hlen].
  - destruct (existsb _ l) eqn:E.
    + split; [discriminate|]. intros [H|H]; [lia|].
      apply existsb_exists in E as ([x|] & Hx & Ex); [discriminate|contradiction].
    + split; [|reflexivity]. intros _. right. intros Hin.
      assert (existsb (fun o => match o with None => true | Some _ => false end) l = true)
        by (apply existsb_exists; exists None; split; [exact Hin | reflexivity]).
      congruence.
  - split; [|reflexivity]. intros _. left. exact Hlen.
Qed.

Lemma report_snd cfg st :
  snd (report cfg st) =
  if (opt_str_truthy (h_show cfg)
      || match expected_num_errors st, expected_num_failures st with
         | Some _, Some _ => true
         | _, _ => false
         end)
     && implb (h_report_passing cfg)
          match py_sorted_tests (passing_tests st) with Some _ => true | None => false end
     && implb (h_report_skips cfg)
          match py_sorted_tests (dd_list (nonpassing_tests st) "SKIP") with
          | Some _ => true | None => false end
     && implb (h_report_errors cfg)
          match py_sorted_tests (app (dd_list (nonpassing_tests st) "ERROR")
                                     (dd_list (nonpassing_tests st) "FAIL")) with
          | Some _ => true | None => false end
  then None else Some TypeError.
Proof.
  unfold report. cbv zeta.
  destruct (h_report_errors cfg), (py_sorted_tests (app _ _));
  destruct (h_report_skips cfg), (py_sorted_tests (dd_list _ "SKIP"));
  destruct (h_report_passing cfg), (py_sorted_tests (passing_tests st));
  destruct (unhandled_tags st);
  destruct (opt_str_truthy (h_show cfg));
  destruct (expected_num_errors st), (expected_num_failures st);
  reflexivity.
Qed.

(** [report] raises nothing but [TypeError], and raises it exactly when,
    in summary mode, the header counts are missing, or when a requested
    list ([--passing], [--skips], [--errors]) has two or more entries one
    of which is [None] (a testcase without [name]): [sorted] cannot
    compare [None] with a [str]. *)
Theorem report_outcome cfg st :
  (snd (report cfg st) = None \/ snd (report cfg st) = Some TypeError) /\
  (snd (report cfg st) = None <->
     (opt_str_truthy (h_show cfg) = true \/
      (expected_num_errors st <> None /\ expected_num_failures st <> None)) /\
     (h_report_passing cfg = true ->
      (length (passing_tests st) < 2)%nat \/ ~ In None (passing_tests st)) /\
     (h_report_skips cfg = true ->
      (length (dd_list (nonpassing_tests st) "SKIP") < 2)%nat \/
      ~ In None (dd_list (nonpassing_tests st) "SKIP")) /\
     (h_report_errors cfg = true ->
      (length (app (dd_list (nonpassing_tests st) "ERROR")
                   (dd_list (nonpassing_tests st) "FAIL")) < 2)%nat \/
      ~ In None (app (dd_list (nonpassing_tests st) "ERROR")
                     (dd_list (nonpassing_tests st) "FAIL")))).
Proof.
  rewrite report_snd.
  rewrite <- !py_sorted_tests_ok.
  assert (I1 : (opt_str_truthy (h_show cfg)
                || match expected_num_errors st, expected_num_failures st with
                   | Some _, Some _ => true
                   | _, _ => false
                   end) = true <->
               (opt_str_truthy (h_show cfg) = true \/
                (expected_num_errors st <> None /\ expected_num_failures st <> None))).
  { rewrite orb_true_iff.
    destruct (expected_num_errors st), (expected_num_failures st);
      intuition congruence. }
  assert (Imp : forall b c : bool, implb b c = true <-> (b = true -> c = true)).
  { intros [] []; simpl; intuition congruence. }
  rewrite <- I1, <- !Imp.
  destruct (_ && _ && _ && _) eqn:E.
  - rewrite !andb_true_iff in E. split; [left; reflexivity|]. tauto.
  - split; [right; reflexivity|]. split; [discriminate|].
    intros (H1 & H2 & H3 & H4). rewrite H1, H2, H3, H4 in E. discriminate E.
Qed.

Example init_add_prefix_examples :
  (init_add_prefix "" "tests/junit.xml", init_add_prefix "" "junit.xml",
   init_add_prefix "" "./out/../tests/junit.xml", init_add_prefix "" "/tmp/junit.xml",
   init_add_prefix "pre/" "tests/junit.xml", init_add_prefix "" "../junit.xml")
  = ("tests/", "", "tests/", "", "pre/", "../").
Proof. reflexivity. Qed.

(** ** The add prefix derived from the report path *)

Lemma concat_app_last ds f :
  ds <> [] ->
  String.concat "/" (app ds [f]) = String.concat "/" ds ++ String "/" f.
Proof.
  induction ds as [|d ds IH]; intros Hn; [contradiction Hn; reflexivity|].
  destruct ds as [|d2 ds'].
  - reflexivity.
  - change (String.concat "/" (d :: app (d2 :: ds') [f])
            = String.concat "/" (d :: d2 :: ds') ++ String "/" f).
    change (String.concat "/" (d :: app (d2 :: ds') [f]))
      with (d ++ "/" ++ String.concat "/" (app (d2 :: ds') [f])).
    change (String.concat "/" (d :: d2 :: ds'))
      with (d ++ "/" ++ String.concat "/" (d2 :: ds')).
    rewrite IH by discriminate. rewrite !string_app_assoc. reflexivity.
Qed.

Lemma split_join parts :
  parts <> [] -> Forall (fun p => has_char "/" p = false) parts ->
  py_split "/" (py_join "/" parts) = parts.
Proof.
  unfold py_join. induction parts as [|p ps IH]; intros Hn Hf; [contradiction Hn; reflexivity|].
  inversion Hf as [|? ? Hp Hps]; subst.
  destruct ps as [|q ps'].
  - apply py_split_no_sep. exact Hp.
  - change (String.concat "/" (p :: q :: ps'))
      with (p ++ String "/" (String.concat "/" (q :: ps'))).
    rewrite py_split_sep, (py_split_no_sep _ _ Hp), IH by (discriminate || exact Hps).
    reflexivity.
Qed.

Lemma plain_component_spec p :
  plain_component p = true ->
  String.eqb p "" = false /\ has_char "/" p = false /\ String.eqb p "." = false /\
  String.eqb p ".." = false.
Proof.
  unfold plain_component, str_truthy. intros H.
  repeat rewrite andb_true_iff in H. destruct H as [[[H1 H2] H3] H4].
  apply negb_true_iff in H1, H2, H3, H4. tauto.
Qed.

Lemma normpath_fold_plain acc parts :
  forallb plain_component parts = true ->
  fold_left (normpath_step 0) parts acc = app acc parts.
Proof.
  revert acc. induction parts as [|p ps IH]; intros acc H; simpl.
  - rewrite app_nil_r. reflexivity.
  - apply andb_true_iff in H as [Hp Hps].
    destruct (plain_component_spec p Hp) as (E1 & _ & E2 & E3).
    unfold normpath_step at 2. rewrite E1, E2, E3. simpl.
    rewrite IH by exact Hps. rewrite <- app_assoc. reflexivity.
Qed.

Lemma plain_first_char p :
  plain_component p = true -> exists a p', p = String a p' /\ Ascii.eqb a "/" = false.
Proof.
  intros H. destruct (plain_component_spec p H) as (E1 & E2 & _).
  destruct p as [|a p']; [discriminate E1|].
  simpl in E2. apply orb_false_iff in E2 as [Ea _]. eauto.
Qed.

Lemma join_first_char p ps :
  plain_component p = true ->
  exists a s, py_join "/" (p :: ps) = String a s /\ Ascii.eqb a "/" = false.
Proof.
  intros H. destruct (plain_first_char p H) as (a & p' & -> & Ea).
  unfold py_join. rewrite concat_cons_char. eauto.
Qed.

Lemma startswith_slash_char a s :
  Ascii.eqb a "/" = false -> py_startswith (String a s) "/" = false.
Proof.
  intros H. unfold py_startswith.
  change (String.prefix (String "/" "") (String a s))
    with (match ascii_dec "/" a with left _ => String.prefix "" s | right _ => false end).
  destruct (ascii_dec "/" a) as [<-|]; [discriminate H | reflexivity].
Qed.

Lemma normpath_plain parts :
  parts <> [] -> forallb plain_component parts = true ->
  py_normpath (py_join "/" parts) = py_join "/" parts.
Proof.
  intros Hn H.
  destruct parts as [|p ps]; [contradiction Hn; reflexivity|].
  pose proof H as H'. simpl in H'. apply andb_true_iff in H' as [Hp _].
  destruct (join_first_char p ps Hp) as (a & s & Ej & Ea).
  assert (Hs : Forall (fun p => has_char "/" p = false) (p :: ps)).
  { apply Forall_forall. intros x Hx. rewrite forallb_forall in H.
    exact (proj1 (proj2 (plain_component_spec x (H x Hx)))). }
  unfold py_normpath.
  assert (Hsl : py_startswith (py_join "/" (p :: ps)) "/" = false).
  { rewrite Ej. apply startswith_slash_char. exact Ea. }
  rewrite Hsl, (split_join _ Hn Hs), (normpath_fold_plain [] _ H). simpl app.
  rewrite Ej. reflexivity.
Qed.

Lemma rfind_after_no_sep c s : has_char c s = false -> rfind_after c s = 0%nat.
Proof.
  destruct s as [|a s]; simpl; intros H; [reflexivity|].
  apply orb_false_iff in H as [Ha Hs]. rewrite Hs, Ha. reflexivity.
Qed.

Lemma rfind_after_sep c x f :
  has_char c f = false -> rfind_after c (x ++ String c f) = S (String.length x).
Proof.
  intros Hf. induction x as [|a x IH]; simpl.
  - rewrite Hf, Ascii.eqb_refl. reflexivity.
  - rewrite has_char_app. simpl. rewrite Ascii.eqb_refl, orb_true_r. simpl.
    rewrite IH. reflexivity.
Qed.

Lemma substring_upto_sep c x f :
  String.substring 0 (S (String.length x)) (x ++ String c f) = x ++ String c "".
Proof.
  induction x as [|a x IH]; simpl; [destruct f; reflexivity | now rewrite IH].
Qed.

Lemma rstrip_sep_end c x : py_rstrip c (x ++ String c "") = py_rstrip c x.
Proof.
  induction x as [|a x IH]; simpl.
  - rewrite Ascii.eqb_refl. reflexivity.
  - rewrite IH. reflexivity.
Qed.

Lemma rstrip_no_sep c p : has_char c p = false -> py_rstrip c p = p.
Proof.
  induction p as [|a p IH]; simpl; intros H; [reflexivity|].
  apply orb_false_iff in H as [Ha Hp]. rewrite (IH Hp), Ha, andb_false_r. reflexivity.
Qed.

Lemma rstrip_app_keep c y p :
  p <> "" -> py_rstrip c p = p -> py_rstrip c (y ++ p) = y ++ p.
Proof.
  intros Hn Hp. induction y as [|a y IH]; simpl; [exact Hp|].
  rewrite IH. destruct (y ++ p) eqn:E; [|reflexivity].
  destruct y; simpl in E; [contradiction | discriminate].
Qed.

(** Without [--add-prefix], a relative report path made of plain
    components ([d1/.../dn/f], none empty, [.] or [..]) gives the add
    prefix [d1/.../dn/], and the empty prefix when the path is a bare file
    name. *)
Theorem init_add_prefix_relative a ds f :
  a_add_prefix a = "" ->
  a_junitxml a = py_join "/" (app ds [f]) ->
  forallb plain_component (app ds [f]) = true ->
  h_add_prefix (handler_config a)
  = match ds with [] => "" | _ => py_join "/" ds ++ "/" end.
Proof.
  intros Ha Hj Hp. simpl. unfold init_add_prefix. rewrite Ha, Hj.
  change (str_truthy "") with false. cbv iota.
  assert (Hn : app ds [f] <> []) by (destruct ds; discriminate).
  destruct (app ds [f]) as [|p0 ps0] eqn:Eds; [contradiction Hn; reflexivity|].
  pose proof Hp as Hp0. simpl in Hp0. apply andb_true_iff in Hp0 as [Hp0 _].
  destruct (join_first_char p0 ps0 Hp0) as (c0 & s0 & Ej & Ec).
  assert (Habs : py_isabs (py_join "/" (p0 :: ps0)) = false).
  { unfold py_isabs. rewrite Ej. apply startswith_slash_char. exact Ec. }
  rewrite Habs. simpl negb. cbv iota.
  rewrite (normpath_plain _ Hn Hp). rewrite <- Eds in Hp |- *. clear Ej Habs Eds Hn.
  rewrite forallb_app in Hp. apply andb_true_iff in Hp as [Hds Hf].
  simpl in Hf. rewrite andb_true_r in Hf.
  destruct (plain_component_spec f Hf) as (Ef1 & Ef2 & _).
  destruct ds as [|d ds'].
  - unfold py_dirname. simpl app. unfold py_join. simpl String.concat.
    rewrite (rfind_after_no_sep _ _ Ef2).
    replace (String.substring 0 0 f) with "" by (destruct f; reflexivity).
    reflexivity.
  - unfold py_join. rewrite concat_app_last by discriminate.
    unfold py_dirname. rewrite (rfind_after_sep _ _ _ Ef2), substring_upto_sep.
    set (x := String.concat "/" (d :: ds')).
    assert (Hd : plain_component d = true) by (simpl in Hds; apply andb_true_iff in Hds; tauto).
    destruct (join_first_char d ds' Hd) as (c1 & s1 & Ex & Ec1).
    unfold py_join in Ex. fold x in Ex.
    assert (Hall : String.eqb (x ++ String "/" "")
                     (repeat_str (String.length (x ++ String "/" "")) "/") = false).
    { rewrite Ex. simpl. rewrite Ec1. reflexivity. }
    assert (Htr : str_truthy (x ++ String "/" "") = true) by (rewrite Ex; reflexivity).
    rewrite Htr, Hall. simpl andb. cbv iota.
    rewrite rstrip_sep_end.
    (* the last component of [x] keeps [rstrip] from removing anything *)
    destruct (exists_last (l := d :: ds') ltac:(discriminate)) as (ds0 & l & El).
    assert (Hl : plain_component l = true).
    { rewrite forallb_forall in Hds. apply Hds. rewrite El. apply in_or_app. right; left; reflexivity. }
    destruct (plain_component_spec l Hl) as (El1 & El2 & _).
    assert (Hx : exists y, x = y ++ l).
    { unfold x. rewrite El. destruct ds0 as [|d0 ds0'].
      - exists "". reflexivity.
      - exists (String.concat "/" (d0 :: ds0') ++ "/").
        rewrite concat_app_last by discriminate. rewrite string_app_assoc. reflexivity. }
    destruct Hx as [y Hy].
    assert (Hr : py_rstrip "/" x = x).
    { rewrite Hy. apply rstrip_app_keep; [|apply rstrip_no_sep; exact El2].
      intros ->. discriminate El1. }
    assert (Htx : str_truthy x = true) by (rewrite Ex; reflexivity).
    rewrite Hr, Htx. reflexivity.
Qed.

Lemma init_add_prefix_relative_witness :
  h_add_prefix (handler_config
    (mk_args "build/reports/junit.xml" false false false "/code/" "" None))
  = "build/reports/".
Proof.
  exact (init_add_prefix_relative
           (mk_args "build/reports/junit.xml" false false false "/code/" "" None)
           ["build"; "reports"] "junit.xml" eq_refl eq_refl eq_refl).
Defined.

(** ** The end of the event stream *)

(** C9 (as the code does it): the handler has no end-of-document check.  A
    run that starts outside a testcase and stops inside one raises nothing;
    the unfinished testcase is counted in [num_testcases] but filed in no
    list (exactly one counted testcase is missing from the lists), and
    [report], which has no branch on the nesting level, prints for this
    state exactly what it prints for the same state at level 0: no line
    marks the truncated document. *)
Theorem truncated_run_report cfg evs st st' :
  run cfg evs st = (inr tt, st') ->
  testcase_level st = 0%Z -> testcase_level st' = 1%Z ->
  (num_testcases st' - num_testcases st
   = Z.of_nat (filed_count st') - Z.of_nat (filed_count st) + 1)%Z /\
  report cfg st' = report cfg (set_testcase_level 0%Z st').
Proof.
  intros H Hl0 Hl1. split; [|reflexivity].
  pose proof (run_additive cfg (fun s => testcase_level s)
             (fun e => (if start_is "testcase" e then 1 else 0)
                       - (if end_is "testcase" e then 1 else 0))%Z evs st st'
             ltac:(intros e s s' He; pose proof (handle_level cfg e s s' He) as Hh;
                   simpl in *; lia) H) as Hlv.
  pose proof (run_counts cfg (fun s => num_testcases s) (start_is "testcase") evs st st'
                ltac:(intros e s s' He; pose proof (handle_num cfg e s s' He) as Hh;
                      simpl in *; destruct e; exact Hh) H) as Hn.
  pose proof (run_counts cfg (fun s => Z.of_nat (filed_count s)) (end_is "testcase")
                evs st st'
                ltac:(intros e s s' He; cbv beta; rewrite (handle_filed cfg e s s' He);
                      destruct (end_is "testcase" e); lia) H) as Hf.
  simpl in Hf. rewrite Hf, Hn.
  assert (Hb : fold_right Z.add 0%Z
                 (map (fun e => (if start_is "testcase" e then 1 else 0)
                                - (if end_is "testcase" e then 1 else 0))%Z evs)
               = (Z.of_nat (length (filter (start_is "testcase") evs))
                  - Z.of_nat (length (filter (end_is "testcase") evs)))%Z).
  { rewrite <- !sum_indicator. clear. induction evs as [|e evs IH]; simpl; lia. }
  cbv beta in Hlv. simpl in Hl0, Hl1. lia.
Qed.

Lemma truncated_run_report_witness :
  run cfg_all_lists events_truncated init_state
  = (inr tt, snd (run cfg_all_lists events_truncated init_state)) /\
  testcase_level init_state = 0%Z /\
  testcase_level (snd (run cfg_all_lists events_truncated init_state)) = 1%Z /\
  (num_testcases (snd (run cfg_all_lists events_truncated init_state))
   - num_testcases init_state
   = Z.of_nat (filed_count (snd (run cfg_all_lists events_truncated init_state)))
     - Z.of_nat (filed_count init_state) + 1)%Z.
Proof.
  assert (H : run cfg_all_lists events_truncated init_state
              = (inr tt, snd (run cfg_all_lists events_truncated init_state)))
    by reflexivity.
  assert (H0 : testcase_level init_state = 0%Z) by reflexivity.
  assert (H1 : testcase_level (snd (run cfg_all_lists events_truncated init_state)) = 1%Z)
    by reflexivity.
  split; [exact H|]. split; [exact H0|]. split; [exact H1|].
  exact (proj1 (truncated_run_report _ _ _ _ H H0 H1)).
Defined.
